(** * Hyperion node: the DMX / ArtNet bridge of [main.py]

    A shallow embedding of the streaming-to-broadcast core of the Hyperion
    client ([get_subnet_broadcast] and [run_dmx_client]) together with the
    properties of its frame handling, universe registry, target fix-up and
    reconnect loop.

    Python values are modelled as follows: [str] as [string] (each character
    a code point below 256), [bytes] as [list byte], [int] as [Z] or [N],
    [dict] as [gmap]; a raised exception is the [Raise] outcome of a
    computation. *)

From Stdlib Require Import ZArith NArith Ascii String List Lia Bool.
From Stdlib Require Import Strings.Byte DecimalString DecimalN DecimalFacts.
From stdpp Require Import gmap strings list.

Import ListNotations.
Open Scope string_scope.

(** ** Outcomes of Python computations *)

(** The exceptions the embedded code can meet.  All of them are subclasses of
    Python's [Exception]; [ConnectionClosed] is the one the reconnect loop
    names in a handler of its own. *)
Inductive exn : Type :=
  | AddressValueError
  | NetmaskValueError
  | ValueError
  | KeyError (key : string)
  | AttributeError
  | ConnectionClosed
  | LibraryError.

Inductive outcome (A : Type) : Type :=
  | Ret (a : A)
  | Raise (e : exn).
Arguments Ret {A} a.
Arguments Raise {A} e.

Definition bind {A B : Type} (m : outcome A) (k : A -> outcome B) : outcome B :=
  match m with
  | Ret a => k a
  | Raise e => Raise e
  end.

(** [try: m  except Exception: h] *)
Definition try_except {A : Type} (m : outcome A) (h : exn -> outcome A) : outcome A :=
  match m with
  | Ret a => Ret a
  | Raise e => h e
  end.

Notation "'let*' x ':=' m 'in' k" := (bind m (fun x => k))
  (at level 10, x name, m at level 100, k at level 200).
Notation "'let*' ' p ':=' m 'in' k" := (bind m (fun p => k))
  (at level 10, p pattern, m at level 100, k at level 200).

(** ** Python string primitives *)

Module PyStr.

(** [s.split(sep)] for a one-character separator. *)
Fixpoint split (sep : ascii) (s : string) : list string :=
  match s with
  | EmptyString => [EmptyString]
  | String c s' =>
      if Ascii.eqb c sep then EmptyString :: split sep s'
      else match split sep s' with
           | [] => [String c EmptyString]
           | w :: ws => String c w :: ws
           end
  end.

(** [sep.join(parts)] *)
Fixpoint join (sep : string) (parts : list string) : string :=
  match parts with
  | [] => EmptyString
  | [w] => w
  | w :: ws => w +:+ sep +:+ join sep ws
  end.

(** [c in s] for a character [c]. *)
Fixpoint contains (c : ascii) (s : string) : bool :=
  match s with
  | EmptyString => false
  | String c' s' => Ascii.eqb c' c || contains c s'
  end.

Fixpoint all_chars (p : ascii -> bool) (s : string) : bool :=
  match s with
  | EmptyString => true
  | String c s' => p c && all_chars p s'
  end.

(** [s.isascii()]: every code point is below 128 (true of the empty string). *)
Definition isascii (s : string) : bool :=
  all_chars (fun c => (N_of_ascii c <? 128)%N) s.

(** Code points below 256 for which [str.isdigit] holds: the ten ASCII
    digits and the superscripts U+00B2, U+00B3 and U+00B9. *)
Definition char_isdigit (c : ascii) : bool :=
  let n := N_of_ascii c in
  ((48 <=? n) && (n <=? 57) || (n =? 178) || (n =? 179) || (n =? 185))%N.

(** [s.isdigit()]: non-empty and every character a digit. *)
Definition isdigit (s : string) : bool :=
  match s with
  | EmptyString => false
  | _ => all_chars char_isdigit s
  end.

(** [int(s, 10)] on a string of ASCII digits; [ValueError] otherwise. *)
Definition int (s : string) : outcome N :=
  match NilZero.uint_of_string s with
  | Some d => Ret (N.of_uint d)
  | None => Raise ValueError
  end.

(** [str(n)] for a non-negative integer [n]. *)
Definition str (n : N) : string := NilZero.string_of_uint (N.to_uint n).

(** [s.startswith(p)] *)
Fixpoint startswith (p s : string) : bool :=
  match p, s with
  | EmptyString, _ => true
  | String a p', String b s' => Ascii.eqb a b && startswith p' s'
  | String _ _, EmptyString => false
  end.

(** [s.replace(old, new)]: every non-overlapping occurrence of [old],
    scanning from the left, is replaced by [new].  [skip] counts the
    characters of a match that are still to be dropped. *)
Fixpoint replace_from (old new : string) (skip : nat) (s : string) : string :=
  match s with
  | EmptyString => EmptyString
  | String c s' =>
      match skip with
      | S k => replace_from old new k s'
      | O =>
          if startswith old s
          then new +:+ replace_from old new (String.length old - 1) s'
          else String c (replace_from old new 0 s')
      end
  end.

(** With an empty [old] Python puts [new] before every character and at
    the end. *)
Fixpoint intersperse (new s : string) : string :=
  match s with
  | EmptyString => new
  | String c s' => new +:+ String c (intersperse new s')
  end.

Definition replace (old new s : string) : string :=
  match old with
  | EmptyString => intersperse new s
  | _ => replace_from old new 0 s
  end.

End PyStr.

(** ** Integers and bytes *)

(** [int.from_bytes(bs, byteorder='big')] on a sequence of byte values. *)
Definition int_from_bytes_big (bs : list N) : N :=
  fold_left (fun acc b => (acc * 256 + b)%N) bs 0%N.

(** [v.to_bytes(len, 'big')] as a list of byte values, for [v < 256 ^ len]. *)
Fixpoint int_to_bytes_big (len : nat) (v : N) : list N :=
  match len with
  | O => []
  | S k => N.land (N.shiftr v (8 * N.of_nat k)) 255 :: int_to_bytes_big k v
  end.

(** Monadic [map]: the first exception met is the one raised. *)
Fixpoint map_outcome {A B : Type} (f : A -> outcome B) (l : list A) : outcome (list B) :=
  match l with
  | [] => Ret []
  | a :: l' =>
      let* b := f a in
      let* bs := map_outcome f l' in
      Ret (b :: bs)
  end.

(** ** The part of Python's [ipaddress] module the client calls

    [get_subnet_broadcast] builds [ipaddress.IPv4Network(f"{ip}/24",
    strict=False)] and prints its [broadcast_address].  The definitions
    below follow CPython's [ipaddress.py] (3.9.5 and later, where an octet
    with a leading zero is refused), function by function. *)

Module Ipaddress.

Definition ALL_ONES : N := 4294967295.
Definition max_prefixlen : N := 32.

(** [_split_optional_netmask]: at most one ['/']. *)
Definition _split_optional_netmask (address : string) : outcome (list string) :=
  let addr := PyStr.split "/" address in
  if (2 <? List.length addr)%nat then Raise AddressValueError else Ret addr.

(** [IPv4Address._parse_octet] *)
Definition _parse_octet (octet_str : string) : outcome N :=
  match octet_str with
  | EmptyString => Raise ValueError
  | String c0 _ =>
      if negb (PyStr.isascii octet_str && PyStr.isdigit octet_str) then Raise ValueError
      else if (3 <? String.length octet_str)%nat then Raise ValueError
      else if negb (String.eqb octet_str "0") && Ascii.eqb c0 "0" then Raise ValueError
      else
        let* octet_int := PyStr.int octet_str in
        if (255 <? octet_int)%N then Raise ValueError else Ret octet_int
  end.

(** [IPv4Address._ip_int_from_string] *)
Definition _ip_int_from_string (ip_str : string) : outcome N :=
  match ip_str with
  | EmptyString => Raise AddressValueError
  | _ =>
      let octets := PyStr.split "." ip_str in
      if negb (List.length octets =? 4)%nat then Raise AddressValueError
      else
        try_except
          (let* bs := map_outcome _parse_octet octets in
           Ret (int_from_bytes_big bs))
          (fun _ => Raise AddressValueError)
  end.

(** [IPv4Address(address)] for a string: the address as an integer. *)
Definition IPv4Address (address : string) : outcome N :=
  if PyStr.contains "/" address then Raise AddressValueError
  else _ip_int_from_string address.

(** The mask argument of [_make_netmask]: the text after the ['/'], or the
    integer 32 when there is none. *)
Inductive mask_arg : Type :=
  | MaskStr (s : string)
  | MaskInt (n : N).

(** [_prefix_from_prefix_string] *)
Definition _prefix_from_prefix_string (prefixlen_str : string) : outcome N :=
  if negb (PyStr.isascii prefixlen_str && PyStr.isdigit prefixlen_str)
  then Raise NetmaskValueError
  else
    let* prefixlen :=
      try_except (PyStr.int prefixlen_str) (fun _ => Raise NetmaskValueError) in
    if (max_prefixlen <? prefixlen)%N then Raise NetmaskValueError else Ret prefixlen.

(** [_ip_int_from_prefix] *)
Definition _ip_int_from_prefix (prefixlen : N) : N :=
  N.lxor ALL_ONES (N.shiftr ALL_ONES prefixlen).

(** [_make_netmask], giving the netmask and the prefix length.  CPython
    also accepts a mask written as a dotted quad; that form is left out
    (it raises here), since the only mask text this program ever passes
    is the literal [24]. *)
Definition _make_netmask (arg : mask_arg) : outcome (N * N) :=
  let* prefixlen :=
    match arg with
    | MaskInt n =>
        if (max_prefixlen <? n)%N then Raise NetmaskValueError else Ret n
    | MaskStr s => _prefix_from_prefix_string s
    end in
  Ret (_ip_int_from_prefix prefixlen, prefixlen).

Record IPv4Network : Type := {
  network_address : N;
  netmask : N;
  prefixlen : N
}.

(** [_split_addr_prefix] on a string *)
Definition _split_addr_prefix (address : string) : outcome (string * mask_arg) :=
  let* parts := _split_optional_netmask address in
  match parts with
  | addr :: mask :: _ => Ret (addr, MaskStr mask)
  | [addr] => Ret (addr, MaskInt max_prefixlen)
  | [] => Raise AddressValueError
  end.

(** [IPv4Network(address, strict)] *)
Definition IPv4Network_init (address : string) (strict : bool) : outcome IPv4Network :=
  let* '(addr, mask) := _split_addr_prefix address in
  let* packed := IPv4Address addr in
  let* '(nm, plen) := _make_netmask mask in
  if negb (N.land packed nm =? packed)%N then
    if strict then Raise ValueError
    else Ret {| network_address := N.land packed nm; netmask := nm; prefixlen := plen |}
  else Ret {| network_address := packed; netmask := nm; prefixlen := plen |}.

Definition hostmask (net : IPv4Network) : N := N.lxor (netmask net) ALL_ONES.

Definition broadcast_address (net : IPv4Network) : N :=
  N.lor (network_address net) (hostmask net).

(** [str(IPv4Address)]: ['.'.join(map(str, ip_int.to_bytes(4, 'big')))] *)
Definition _string_from_ip_int (ip_int : N) : string :=
  PyStr.join "." (map PyStr.str (int_to_bytes_big 4 ip_int)).

End Ipaddress.

(** ** [get_subnet_broadcast] *)

Definition GLOBAL_BROADCAST : string := "255.255.255.255".

Definition get_subnet_broadcast (ip : string) : outcome string :=
  try_except
    (let* net := Ipaddress.IPv4Network_init (ip +:+ "/24") false in
     Ret (Ipaddress._string_from_ip_int (Ipaddress.broadcast_address net)))
    (fun _ => Ret GLOBAL_BROADCAST).

(** ** Configuration *)

(** The values [json.load] can put under a key of [node_config.json], as far
    as this program tells them apart. *)
Inductive pyval : Type :=
  | PyNone
  | PyBool (b : bool)
  | PyInt (z : Z)
  | PyStr (s : string).

(** [v == s] for a string literal [s]: only an equal string compares equal. *)
Definition py_eq_str (v : pyval) (s : string) : bool :=
  match v with
  | PyStr s' => String.eqb s' s
  | _ => false
  end.

(** How an f-string renders a value. *)
Definition py_format (v : pyval) : string :=
  match v with
  | PyNone => "None"
  | PyBool true => "True"
  | PyBool false => "False"
  | PyInt z => NilZero.string_of_int (Z.to_int z)
  | PyStr s => s
  end.

(** [config[key]] *)
Definition getitem (config : gmap string pyval) (key : string) : outcome pyval :=
  match config !! key with
  | Some v => Ret v
  | None => Raise (KeyError key)
  end.

(** [config.get(key, dflt)] *)
Definition get_default (config : gmap string pyval) (key : string) (dflt : pyval) : pyval :=
  match config !! key with
  | Some v => v
  | None => dflt
  end.

(** Lines 180-189 of [run_dmx_client]: the ArtNet target after the broadcast
    fix-up, for the local address [my_ip] that [get_local_ip] returned. *)
Definition target_ip (config : gmap string pyval) (my_ip : string) : outcome pyval :=
  let target_ip := get_default config "artnet_ip" (PyStr "255.255.255.255") in
  if py_eq_str target_ip "255.255.255.255"
  then let* b := get_subnet_broadcast my_ip in Ret (PyStr b)
  else Ret target_ip.

(** Line 198: [config['server_url'].replace("http://", "ws://")] *)
Definition ws_base (config : gmap string pyval) : outcome string :=
  let* v := getitem config "server_url" in
  match v with
  | PyStr s => Ret (PyStr.replace "http://" "ws://" s)
  | _ => Raise AttributeError
  end.

(** Line 199: [f"{ws_base}/dmx?token={config['device_secret']}"] *)
Definition uri (config : gmap string pyval) : outcome string :=
  let* base := ws_base config in
  let* secret := getitem config "device_secret" in
  Ret (base +:+ "/dmx?token=" +:+ py_format secret).

(** ** The engine: messages, the ArtNet node and the universe registry *)

(** What the websocket yields: [bytes] or [str]. *)
Inductive message : Type :=
  | Binary (data : list byte)
  | Text (data : string).

(** A channel object returned by [universe.add_channel]; [ch_id] stands for
    the identity of the object. *)
Record channel : Type := {
  ch_id : nat;
  ch_universe : N;
  ch_start : Z;
  ch_width : Z;
  ch_name : string
}.

(** Calls into the ArtNet library. *)
Inductive sink_call : Type :=
  | CreateNode (target : pyval) (port max_fps refresh_every : Z)
  | AddUniverse (u_id : N)
  | AddChannel (u_id : N) (start width : Z) (channel_name : string)
  | SetValues (ch : channel) (values : list N).

Inductive log_entry : Type :=
  | LogBroadcast (target : string)
  | LogStart (target : pyval) (my_ip : string)
  | LogConnecting (node_name : pyval)
  | LogConnected
  | LogReceive (dmx_len : N) (u_id : N)
  | LogRegister (u_id : N)
  | LogServerInfo (text : string)
  | LogLost
  | LogCritical (e : exn).

(** Observable effects, in the order they happen. *)
Inductive event : Type :=
  | EvSink (c : sink_call)
  | EvLog (l : log_entry)
  | EvConnect (uri : string)
  | EvSleep (seconds : Z).

Record engine : Type := {
  universe_channels : gmap N channel;
  node_channels : list channel;
  trace : list event
}.

Definition initial_engine : engine :=
  {| universe_channels := ∅; node_channels := []; trace := [] |}.

(** Computations over the engine: the state survives a raised exception, as
    the mutations of a Python object do. *)
Definition M (A : Type) : Type := engine -> outcome A * engine.

Definition ret {A : Type} (a : A) : M A := fun st => (Ret a, st).
Definition raise {A : Type} (e : exn) : M A := fun st => (Raise e, st).
Definition mbind {A B : Type} (m : M A) (k : A -> M B) : M B :=
  fun st =>
    match m st with
    | (Ret a, st') => k a st'
    | (Raise e, st') => (Raise e, st')
    end.
Definition lift {A : Type} (o : outcome A) : M A := fun st => (o, st).

Notation "'do' x '<-' m ';' k" := (mbind m (fun x => k))
  (at level 10, x name, m at level 100, k at level 200).
Notation "m ';;' k" := (mbind m (fun _ => k))
  (at level 100, k at level 200, right associativity).

Definition emit (e : event) : M unit :=
  fun st => (Ret tt, {| universe_channels := universe_channels st;
                        node_channels := node_channels st;
                        trace := trace st ++ [e] |}).

Definition log (l : log_entry) : M unit := emit (EvLog l).

(** [asyncio.sleep(seconds)] *)
Definition sleep (seconds : Z) : M unit := emit (EvSleep seconds).

Definition N_of_bytes (bs : list byte) : list N := map Byte.to_N bs.

(** Lines 230-232: a short frame is extended with zeros up to 512 values. *)
Definition pad_values (dmx_values : list N) : list N :=
  if (List.length dmx_values <? 512)%nat
  then dmx_values ++ replicate (512 - List.length dmx_values) 0%N
  else dmx_values.

(** Lines 213-214: the universe id of a binary message. *)
Definition u_id_of (data : list byte) : N :=
  int_from_bytes_big (N_of_bytes (firstn 2 data)).

(** The frame decoder that the message handler contains: the test of
    line 210, the universe id of lines 213-214 and the values of lines
    219-220 after the padding of lines 230-232. *)
Definition decode (msg : message) : option (N * list N) :=
  match msg with
  | Binary data =>
      if (2 <? List.length data)%nat
      then Some (u_id_of data, pad_values (N_of_bytes (skipn 2 data)))
      else None
  | Text _ => None
  end.

Section Engine.

(** The ArtNet library is an external collaborator: whether one of its
    calls raises is left open, and may depend on everything that
    happened before. *)
Variable sink_raises : list event -> sink_call -> bool.

Definition call_sink (c : sink_call) : M unit :=
  fun st =>
    let st' := {| universe_channels := universe_channels st;
                  node_channels := node_channels st;
                  trace := trace st ++ [EvSink c] |} in
    if sink_raises (trace st) c then (Raise LibraryError, st') else (Ret tt, st').

(** [node.add_universe(u_id)] *)
Definition add_universe (u_id : N) : M unit := call_sink (AddUniverse u_id).

(** [universe.add_channel(start, width, channel_name)]: a new channel
    object of the node. *)
Definition add_channel (u_id : N) (start width : Z) (channel_name : string) : M channel :=
  call_sink (AddChannel u_id start width channel_name) ;;
  fun st =>
    let ch := {| ch_id := List.length (node_channels st); ch_universe := u_id;
                 ch_start := start; ch_width := width; ch_name := channel_name |} in
    (Ret ch, {| universe_channels := universe_channels st;
                node_channels := node_channels st ++ [ch];
                trace := trace st |}).

(** [channel.set_values(values)] *)
Definition set_values (ch : channel) (values : list N) : M unit :=
  call_sink (SetValues ch values).

(** [universe_channels[u_id] = channel] *)
Definition registry_set (u_id : N) (ch : channel) : M unit :=
  fun st => (Ret tt, {| universe_channels := <[u_id := ch]> (universe_channels st);
                        node_channels := node_channels st;
                        trace := trace st |}).

(** [universe_channels[u_id]] *)
Definition registry_get (u_id : N) : M channel :=
  fun st =>
    match universe_channels st !! u_id with
    | Some ch => (Ret ch, st)
    | None => (Raise (KeyError (PyStr.str u_id)), st)
    end.

(** Lines 222-228: the registry entry of [u_id] is made on first use. *)
Definition ensure_registered (u_id : N) : M unit :=
  fun st =>
    match universe_channels st !! u_id with
    | Some _ => (Ret tt, st)
    | None =>
        (log (LogRegister u_id) ;;
         add_universe u_id ;;
         do ch <- add_channel u_id 1 512 ("Univ-" +:+ PyStr.str u_id) ;
         registry_set u_id ch) st
    end.

(** The body of [async for message in websocket] (lines 209-237). *)
Definition handle_message (msg : message) : M unit :=
  match msg with
  | Binary data =>
      if (2 <? List.length data)%nat then
        let u_id := u_id_of data in
        let dmx_len := N.of_nat (List.length data - 2) in
        log (LogReceive dmx_len u_id) ;;
        let dmx_values := N_of_bytes (skipn 2 data) in
        ensure_registered u_id ;;
        let dmx_values := pad_values dmx_values in
        do ch <- registry_get u_id ;
        set_values ch dmx_values
      else ret tt
  | Text data => log (LogServerInfo data)
  end.

(** How a connection goes, as the environment decides it.  The iteration
    over the messages either is exhausted ([EndOfStream]: the peer closed
    the connection normally, on which the [websockets] iterator stops
    without an exception) or raises ([Broken]: [ConnectionClosed] for an
    abnormal closure, or another error). *)
Inductive stream_end : Type :=
  | EndOfStream
  | Broken (e : exn).

(** [websockets.connect(uri)] raises ([Refused]), or gives a connection that
    delivers [msgs] and then ends with [fin]. *)
Inductive connection : Type :=
  | Refused (e : exn)
  | Established (msgs : list message) (fin : stream_end).

(** The messages of a connection are handled one after the other; the
    first exception ends the iteration. *)
Fixpoint consume (msgs : list message) : M unit :=
  match msgs with
  | [] => ret tt
  | msg :: rest => handle_message msg ;; consume rest
  end.

(** Lines 205-237: one pass through [async with websockets.connect(uri)]. *)
Definition session (uri : string) (c : connection) : M unit :=
  emit (EvConnect uri) ;;
  match c with
  | Refused e => raise e
  | Established msgs fin =>
      log LogConnected ;;
      consume msgs ;;
      match fin with
      | EndOfStream => ret tt
      | Broken e => raise e
      end
  end.

(** Lines 239-244: the two handlers of the [try]. *)
Definition on_error (e : exn) : M unit :=
  match e with
  | ConnectionClosed => log LogLost ;; sleep 5
  | _ => log (LogCritical e) ;; sleep 5
  end.

Definition attempt (uri : string) (c : connection) : M unit :=
  fun st =>
    match session uri c st with
    | (Ret tt, st') => (Ret tt, st')
    | (Raise e, st') => on_error e st'
    end.

(** [while True] (line 203), run against the connections the environment
    offers; the loop has no exit, so the run stops where the script ends,
    about to connect again. *)
Fixpoint reconnect_loop (uri : string) (script : list connection) : M unit :=
  match script with
  | [] => ret tt
  | c :: rest => attempt uri c ;; reconnect_loop uri rest
  end.

(** [run_dmx_client] from line 184 on, for the address [my_ip] that the
    call of [get_local_ip] of line 183 returned. *)
Definition run_dmx_client (config : gmap string pyval) (my_ip : string)
    (script : list connection) : M unit :=
  let configured := get_default config "artnet_ip" (PyStr GLOBAL_BROADCAST) in
  do target <- lift (target_ip config my_ip) ;
  (if py_eq_str configured GLOBAL_BROADCAST
   then log (LogBroadcast (py_format target)) else ret tt) ;;
  log (LogStart target my_ip) ;;
  call_sink (CreateNode target 6454 30 1) ;;
  do u <- lift (uri config) ;
  do name <- lift (getitem config "node_name") ;
  log (LogConnecting name) ;;
  reconnect_loop u script.

End Engine.

(** ** Vocabulary of the properties *)

(** The dotted quad [a.b.c.d] in canonical decimal notation. *)
Definition dotted_quad (a b c d : N) : string :=
  PyStr.join "." [PyStr.str a; PyStr.str b; PyStr.str c; PyStr.str d].

(** The [set_values] calls of a trace, oldest first. *)
Definition pushes (tr : list event) : list (channel * list N) :=
  omap (fun e => match e with
                 | EvSink (SetValues ch values) => Some (ch, values)
                 | _ => None
                 end) tr.

(** The value lists pushed to the channels of universe [u]. *)
Definition pushes_to (u : N) (tr : list event) : list (list N) :=
  omap (fun p : channel * list N =>
          if (ch_universe p.1 =? u)%N then Some p.2 else None) (pushes tr).

(** The frames that a list of messages carries for universe [u]. *)
Definition frames_for (u : N) (msgs : list message) : list (list N) :=
  omap (fun msg => match decode msg with
                   | Some (u', frame) => if (u' =? u)%N then Some frame else None
                   | None => None
                   end) msgs.

(** The channels the node has created for universe [u]. *)
Definition created_for (u : N) (st : engine) : list channel :=
  filter (fun ch => ch_universe ch = u) (node_channels st).

(** The moments at which the client opens a connection or sleeps. *)
Definition is_scheduling (e : event) : bool :=
  match e with
  | EvConnect _ | EvSleep _ => true
  | _ => false
  end.

Definition schedule (tr : list event) : list event :=
  List.filter is_scheduling tr.

(** Whether a computation ended in an exception. *)
Definition raised {A : Type} (r : outcome A) : bool :=
  match r with
  | Ret _ => false
  | Raise _ => true
  end.

(** What one pass of the reconnect loop adds to the schedule. *)
Definition pass (uri : string) (failed : bool) : list event :=
  EvConnect uri :: if failed then [EvSleep 5] else [].

(** [old in s] *)
Fixpoint occurs (old s : string) : bool :=
  PyStr.startswith old s ||
  match s with
  | EmptyString => false
  | String _ s' => occurs old s'
  end.

(** The 256 octet values, and the check that each of them is printed as a
    string that [_parse_octet] reads back and that holds neither a dot nor
    a slash. *)
Definition octets : list N := map N.of_nat (seq 0 256).

Definition octet_prints_well (n : N) : bool :=
  match Ipaddress._parse_octet (PyStr.str n) with
  | Ret m => (m =? n)%N
  | Raise _ => false
  end && negb (PyStr.contains "." (PyStr.str n))
      && negb (PyStr.contains "/" (PyStr.str n)).

(** The channel that [add_channel] makes for universe [u] in state [st]. *)
Definition new_channel (u : N) (st : engine) : channel :=
  {| ch_id := List.length (node_channels st); ch_universe := u;
     ch_start := 1; ch_width := 512; ch_name := "Univ-" +:+ PyStr.str u |}.

(** The registry and the node agree: the node holds exactly one channel for
    each registered universe and none for the others, every registered
    channel starts at slot 1 and is 512 wide, and every push went to the
    channel registered for its universe. *)
Record registry_consistent (st : engine) : Prop := {
  rc_created : forall u,
    created_for u st = match universe_channels st !! u with
                       | Some ch => [ch]
                       | None => []
                       end;
  rc_shape : forall u ch,
    universe_channels st !! u = Some ch ->
    ch_universe ch = u /\ ch_start ch = 1%Z /\ ch_width ch = 512%Z;
  rc_pushes : forall ch values,
    (ch, values) ∈ pushes (trace st) ->
    universe_channels st !! ch_universe ch = Some ch
}.

(** What every step of the engine maintains: registry entries stay, the
    trace grows at its end, consistency is kept. *)
Record evolves (st st' : engine) : Prop := {
  ev_registry : forall u ch,
    universe_channels st !! u = Some ch -> universe_channels st' !! u = Some ch;
  ev_trace : exists evs, trace st' = (trace st ++ evs)%list;
  ev_consistent : registry_consistent st -> registry_consistent st'
}.

(** What handling one message does to the engine: nothing is pushed (the
    message carries no frame, or a library call raised before the push), or
    the frame is pushed to the channel already registered, or the channel is
    created, registered and pushed to. *)
Inductive effect (sink_raises : list event -> sink_call -> bool)
    (msg : message) (st : engine) (r : outcome unit) (st' : engine) : Prop :=
  | eff_no_push evs :
      (decode msg = None /\ r = Ret tt) \/
      (r = Raise LibraryError /\ exists tr c, sink_raises tr c = true) ->
      universe_channels st' = universe_channels st ->
      node_channels st' = node_channels st ->
      trace st' = (trace st ++ evs)%list -> schedule evs = [] -> pushes evs = [] ->
      effect sink_raises msg st r st'
  | eff_push u frame ch evs :
      decode msg = Some (u, frame) ->
      universe_channels st !! u = Some ch ->
      universe_channels st' = universe_channels st ->
      node_channels st' = node_channels st ->
      trace st' = (trace st ++ evs)%list -> schedule evs = [] ->
      pushes evs = [(ch, frame)] ->
      r = Ret tt \/ (r = Raise LibraryError /\ exists tr c, sink_raises tr c = true) ->
      effect sink_raises msg st r st'
  | eff_create_push u frame evs :
      decode msg = Some (u, frame) ->
      universe_channels st !! u = None ->
      universe_channels st' = <[u := new_channel u st]> (universe_channels st) ->
      node_channels st' = (node_channels st ++ [new_channel u st])%list ->
      trace st' = (trace st ++ evs)%list -> schedule evs = [] ->
      pushes evs = [(new_channel u st, frame)] ->
      r = Ret tt \/ (r = Raise LibraryError /\ exists tr c, sink_raises tr c = true) ->
      effect sink_raises msg st r st'.

(** Inputs at which the properties are evaluated. *)
Definition oversized_message : message :=
  Binary (x00 :: x01 :: replicate 513 xff)%byte.

Definition https_config : gmap string pyval :=
  <["server_url" := PyStr "https://example.com"]>
    (<["device_secret" := PyStr "s3cr3t"]>
       (<["node_name" := PyStr "stage-left"]> ∅)).

Definition broadcast_config : gmap string pyval :=
  <["artnet_ip" := PyStr "255.255.255.255"]> https_config.

Definition unicast_config : gmap string pyval :=
  <["artnet_ip" := PyStr "10.0.0.99"]> https_config.

(** A sink none of whose calls ever raises. *)
Definition reliable_sink : list event -> sink_call -> bool := fun _ _ => false.

Ltac engine_simpl := cbn [fst snd universe_channels node_channels trace].
Ltac trace_eq := engine_simpl; rewrite <- ?app_assoc; reflexivity.

(** ** The device identity: [get_mac_address] *)

(** The lowercase hexadecimal digit of a value below 16. *)
Definition hex_char (d : N) : ascii :=
  match d with
  | 0 => "0" | 1 => "1" | 2 => "2" | 3 => "3" | 4 => "4" | 5 => "5" | 6 => "6"
  | 7 => "7" | 8 => "8" | 9 => "9" | 10 => "a" | 11 => "b" | 12 => "c"
  | 13 => "d" | 14 => "e" | _ => "f"
  end%N%char.

(** The [k] lowest hexadecimal digits of [n], most significant first. *)
Fixpoint hex_fixed (k : nat) (n : N) : string :=
  match k with
  | O => EmptyString
  | S k' => hex_fixed k' (n / 16) +:+ String (hex_char (n mod 16)) EmptyString
  end.

(** The number of hexadecimal digits of [n] written without leading zeros. *)
Definition hex_ndigits (n : N) : nat :=
  match n with
  | N0 => 1
  | _ => N.to_nat (N.log2 n / 4 + 1)
  end.

(** ['%012x' % n]: lowercase hexadecimal, padded with zeros to at least
    twelve digits. *)
Definition format_012x (n : N) : string :=
  hex_fixed (Nat.max 12 (hex_ndigits n)) n.

Definition is_newline (c : ascii) : bool := Ascii.eqb c "010".

(** [re.findall('..', s)]: the non-overlapping pairs of characters other
    than newline, scanning from the left. *)
Fixpoint findall_dotdot (s : string) : list string :=
  match s with
  | String a tl =>
      match tl with
      | String b rest =>
          if negb (is_newline a) && negb (is_newline b)
          then String a (String b EmptyString) :: findall_dotdot rest
          else findall_dotdot tl
      | EmptyString => []
      end
  | EmptyString => []
  end.

(** Lines 37-40, for the value [node] of [uuid.getnode()]. *)
Definition get_mac_address (node : N) : string :=
  PyStr.join ":" (findall_dotdot (format_012x node)).

(** ** The local address: [get_local_ip] *)

Inductive socket_call : Type :=
  | SockCreate
  | SockConnect (host : string) (port : Z)
  | SockGetsockname
  | SockClose.

(** What the operating system answers to the three socket operations. *)
Record network : Type := {
  socket_create : outcome unit;
  socket_connect : outcome unit;
  socket_getsockname : outcome string
}.

(** Lines 43-53: the result and the socket operations performed.  The
    socket is created outside the [try]; [connect] and [getsockname] are
    inside it, and [close] is in the [finally] clause. *)
Definition get_local_ip (net : network) : outcome string * list socket_call :=
  match socket_create net with
  | Raise e => (Raise e, [SockCreate])
  | Ret _ =>
      match socket_connect net with
      | Raise _ =>
          (Ret "127.0.0.1", [SockCreate; SockConnect "10.255.255.255" 1; SockClose])
      | Ret _ =>
          match socket_getsockname net with
          | Raise _ =>
              (Ret "127.0.0.1",
               [SockCreate; SockConnect "10.255.255.255" 1; SockGetsockname; SockClose])
          | Ret IP =>
              (Ret IP,
               [SockCreate; SockConnect "10.255.255.255" 1; SockGetsockname; SockClose])
          end
      end
  end.

(** Lines 180-189 with the call of [get_local_ip] of line 183 in place. *)
Definition startup_target (config : gmap string pyval) (net : network) : outcome pyval :=
  let* my_ip := (get_local_ip net).1 in
  target_ip config my_ip.

(** The whole of [run_dmx_client] (lines 179-244), with the call of
    [get_local_ip] of line 183: when that call raises, which it does when
    its socket cannot be created, the function ends there, before the node
    is created or anything is logged. *)
Definition run_dmx_client_net (sink_raises : list event -> sink_call -> bool)
    (config : gmap string pyval) (net : network) (script : list connection) : M unit :=
  fun st =>
    match (get_local_ip net).1 with
    | Raise e => (Raise e, st)
    | Ret my_ip => run_dmx_client sink_raises config my_ip script st
    end.

(** ** Enrollment: [handle_register] *)

(** [s.rstrip(c)] for a one-character [c]. *)
Fixpoint rstrip (c : ascii) (s : string) : string :=
  match s with
  | EmptyString => EmptyString
  | String a s' =>
      match rstrip c s' with
      | EmptyString => if Ascii.eqb a c then EmptyString else String a EmptyString
      | r => String a r
      end
  end.

(** [s.endswith(c)] for a one-character [c]. *)
Fixpoint endswith_char (c : ascii) (s : string) : bool :=
  match s with
  | EmptyString => false
  | String a EmptyString => Ascii.eqb a c
  | String _ s' => endswith_char c s'
  end.

(** Truth value of a Python value, as [not] and [if] take it. *)
Definition py_truthy (v : pyval) : bool :=
  match v with
  | PyNone => false
  | PyBool b => b
  | PyInt z => negb (z =? 0)%Z
  | PyStr s => negb (String.eqb s "")
  end.

(** [data.get(key)] on the submitted form: the field, or [None]. *)
Definition form_get (data : gmap string string) (key : string) : pyval :=
  match data !! key with
  | Some s => PyStr s
  | None => PyNone
  end.

(** What [await resp.json()] gives: a JSON object or another JSON value. *)
Inductive json_result : Type :=
  | JsonObject (fields : gmap string pyval)
  | JsonOther.

(** How the registration request goes: [session.post] raises, or the server
    answers with a status, and the body reads as JSON and as text. *)
Inductive http_exchange : Type :=
  | PostFails (e : exn)
  | Responded (status : Z) (json : outcome json_result) (text : outcome string).

(** The four pages [handle_register] answers with. *)
Inductive page : Type :=
  | PageNoSecret
  | PageSuccess
  | PageHttpError (status : Z) (text : string)
  | PageError (e : exn).

(** One run of [handle_register]: its response, the request it sent (URL
    and JSON payload) and the configuration that the file holds after a
    completed write, if there was one. *)
Record register_run : Type := {
  rr_response : outcome page;
  rr_request : option (string * gmap string pyval);
  rr_written : option (gmap string pyval)
}.

Section Enrollment.

(** [str.upper], whose table of case mappings is taken as given. *)
Variable upper : string -> string.

(** Lines 114-158, for the device id [node], the submitted form [data],
    the exchange [reply] with the server and the way [write] in which
    writing the configuration file goes ([open] and [json.dump], lines
    150-151).  These two calls are inside the [try]: when one of them
    raises, the handler of line 157 answers with the error page and the
    file, which [open] may have created or emptied, holds no
    configuration. *)
Definition handle_register (node : N) (data : gmap string string)
    (reply : http_exchange) (write : outcome unit) : register_run :=
  match data !! "host" with
  | None => {| rr_response := Raise AttributeError; rr_request := None; rr_written := None |}
  | Some host =>
      let server_base := rstrip "/" host in
      let node_name := form_get data "name" in
      match data !! "otp" with
      | None =>
          {| rr_response := Raise AttributeError; rr_request := None; rr_written := None |}
      | Some otp =>
          let otp_code := upper otp in
          let artnet_ip := form_get data "artnet_ip" in
          let mac_address := get_mac_address node in
          let register_url := server_base +:+ "/api/dmx/otp-authenticate" in
          let payload : gmap string pyval :=
            <["otp" := PyStr otp_code]>
              (<["mac_adress" := PyStr mac_address]>
                 (<["name" := node_name]> ∅)) in
          let answer (p : page) (written : option (gmap string pyval)) :=
            {| rr_response := Ret p;
               rr_request := Some (register_url, payload);
               rr_written := written |} in
          match reply with
          | PostFails e => answer (PageError e) None
          | Responded status json text =>
              if (status =? 200)%Z then
                match json with
                | Raise e => answer (PageError e) None
                | Ret JsonOther => answer (PageError AttributeError) None
                | Ret (JsonObject result) =>
                    let device_secret := get_default result "device_secret" PyNone in
                    if negb (py_truthy device_secret) then answer PageNoSecret None
                    else
                      let new_config : gmap string pyval :=
                        <["server_url" := PyStr server_base]>
                          (<["node_name" := node_name]>
                             (<["device_secret" := device_secret]>
                                (<["artnet_ip" := artnet_ip]>
                                   (<["mac_address" := PyStr mac_address]> ∅)))) in
                      match write with
                      | Ret _ => answer PageSuccess (Some new_config)
                      | Raise e => answer (PageError e) None
                      end
                end
              else
                match text with
                | Raise e => answer (PageError e) None
                | Ret t => answer (PageHttpError status t) None
                end
          end
      end
  end.

End Enrollment.

(** The case mapping of [str.upper] on the letters [a] to [z]; other
    characters are left alone. *)
Definition upper_ascii_char (c : ascii) : ascii :=
  let n := N_of_ascii c in
  if ((97 <=? n) && (n <=? 122))%N then ascii_of_N (n - 32) else c.

Fixpoint upper_ascii (s : string) : string :=
  match s with
  | EmptyString => EmptyString
  | String c s' => String (upper_ascii_char c) (upper_ascii s')
  end.

(** ** Vocabulary of the further properties *)

(** The messages that the connections of a script deliver. *)
Definition script_messages (script : list connection) : list message :=
  flat_map (fun c => match c with
                     | Refused _ => []
                     | Established msgs _ => msgs
                     end) script.

(** A connection that ends in an exception whatever the handler does. *)
Definition connection_fails (c : connection) : bool :=
  match c with
  | Refused _ => true
  | Established _ (Broken _) => true
  | Established _ EndOfStream => false
  end.

(** The calls of [ArtNetNode.create] in a trace; a call is recorded whether
    it returns or raises. *)
Definition node_creations (tr : list event) : list event :=
  List.filter (fun e => match e with
                        | EvSink (CreateNode _ _ _ _) => true
                        | _ => false
                        end) tr.

(** The concatenation of a list of strings. *)
Fixpoint concat_strings (l : list string) : string :=
  match l with
  | [] => ""
  | s :: l' => s +:+ concat_strings l'
  end.

(** Everything pushed and everything registered comes from a message of
    [M]. *)
Definition sourced (M : list message) (st : engine) : Prop :=
  (forall ch values,
     (ch, values) ∈ pushes (trace st) ->
     exists msg, msg ∈ M /\ decode msg = Some (ch_universe ch, values)) /\
  (forall u ch,
     universe_channels st !! u = Some ch ->
     exists msg frame, msg ∈ M /\ decode msg = Some (u, frame)).

(** The events before the node is created, for the target [t]. *)
Definition startup_log (config : gmap string pyval) (my_ip : string) (t : pyval) : list event :=
  ((if py_eq_str (get_default config "artnet_ip" (PyStr GLOBAL_BROADCAST)) GLOBAL_BROADCAST
    then [EvLog (LogBroadcast (py_format t))] else []) ++
   [EvLog (LogStart t my_ip)])%list.

(** The engine right after the call of [ArtNetNode.create]. *)
Definition created_engine (config : gmap string pyval) (my_ip : string) (t : pyval) : engine :=
  {| universe_channels := ∅; node_channels := [];
     trace := (startup_log config my_ip t ++ [EvSink (CreateNode t 6454 30 1)])%list |}.

(** [k] copies of the character [c]. *)
Fixpoint repeat_char (c : ascii) (k : nat) : string :=
  match k with
  | O => EmptyString
  | S k' => String c (repeat_char c k')
  end.

(** The [close] calls among socket operations. *)
Definition is_close (c : socket_call) : bool :=
  match c with
  | SockClose => true
  | _ => false
  end.


(** A network on which no socket can be created. *)
Definition no_network : network :=
  {| socket_create := Raise LibraryError; socket_connect := Ret tt;
     socket_getsockname := Ret "192.168.1.20" |}.

(** A sink whose [ArtNetNode.create] raises. *)
Definition refusing_node_sink : list event -> sink_call -> bool :=
  fun _ c => match c with
             | CreateNode _ _ _ _ => true
             | _ => false
             end.

(** A network on which the probing [connect] fails. *)
Definition offline_network : network :=
  {| socket_create := Ret tt; socket_connect := Raise LibraryError;
     socket_getsockname := Ret "192.168.1.20" |}.

(** A submitted enrollment form without an [artnet_ip] field, and a server
    answer that grants a device secret. *)
Definition enrollment_form : gmap string string :=
  <["host" := "http://192.168.178.50:8000/"]>
    (<["name" := "Stage-Left-01"]> (<["otp" := "xy1234"]> ∅)).

Definition enrollment_ok : http_exchange :=
  Responded 200 (Ret (JsonObject (<["device_secret" := PyStr "s3cr3t"]> ∅))) (Ret "").

(** One connection that delivers the frame 00 01 FF and is then closed
    normally. *)
Definition demo_script : list connection :=
  [Established [Binary [x00; x01; xff]%byte] EndOfStream].

(** * Facts about the string primitives and [ipaddress] *)

Module PyStrFacts.
Import PyStr.

Lemma split_not_nil sep s : split sep s <> [].
Proof.
  destruct s as [|c s]; simpl; [discriminate|].
  destruct (Ascii.eqb c sep); [discriminate|].
  destruct (split sep s); discriminate.
Qed.

Lemma split_no_sep sep s : contains sep s = false -> split sep s = [s].
Proof.
  induction s as [|c s IH]; simpl; [reflexivity|].
  intros H. apply orb_false_iff in H as [Hc Hs].
  rewrite Hc, (IH Hs). reflexivity.
Qed.

Lemma split_app_sep sep s t :
  split sep (s +:+ String sep t) = (split sep s ++ split sep t)%list.
Proof.
  induction s as [|c s IH]; simpl.
  - rewrite Ascii.eqb_refl. reflexivity.
  - rewrite IH. destruct (Ascii.eqb c sep); [reflexivity|].
    pose proof (split_not_nil sep s) as Hne.
    destruct (split sep s); [congruence|reflexivity].
Qed.

Lemma split_length_contains sep s :
  contains sep s = true -> (2 <= List.length (split sep s))%nat.
Proof.
  induction s as [|c s IH]; simpl; [discriminate|].
  destruct (Ascii.eqb c sep) eqn:Hc; simpl.
  - intros _. pose proof (split_not_nil sep s).
    destruct (split sep s); [congruence|simpl; lia].
  - intros H. specialize (IH H).
    destruct (split sep s); simpl in *; lia.
Qed.

Lemma join_split sep s : join (String sep "") (split sep s) = s.
Proof.
  induction s as [|c s IH]; simpl; [reflexivity|].
  destruct (Ascii.eqb c sep) eqn:Hc.
  - apply Ascii.eqb_eq in Hc. subst c.
    pose proof (split_not_nil sep s) as Hne.
    destruct (split sep s) as [|w ws]; [congruence|].
    change (join (String sep "") ("" :: w :: ws))
      with ("" +:+ String sep "" +:+ join (String sep "") (w :: ws)).
    rewrite IH. reflexivity.
  - pose proof (split_not_nil sep s) as Hne.
    destruct (split sep s) as [|w ws]; [congruence|].
    destruct ws as [|w' ws].
    + simpl in *. congruence.
    + change (join (String sep "") (String c w :: w' :: ws))
        with (String c (w +:+ String sep "" +:+ join (String sep "") (w' :: ws))).
      change (join (String sep "") (w :: w' :: ws))
        with (w +:+ String sep "" +:+ join (String sep "") (w' :: ws)) in IH.
      rewrite IH. reflexivity.
Qed.

Lemma contains_app c s t : contains c (s +:+ t) = contains c s || contains c t.
Proof.
  induction s as [|c' s IH]; simpl; [reflexivity|].
  rewrite IH. apply orb_assoc.
Qed.

(** [str] undoes [int] on a digit string without a leading zero. *)
Lemma str_int_canonical s c0 s' n :
  s = String c0 s' ->
  (String.eqb s "0" = true \/ Ascii.eqb c0 "0" = false) ->
  int s = Ret n -> str n = s.
Proof.
  intros Hs Hlead Hint. unfold int in Hint.
  destruct (NilZero.uint_of_string s) as [d|] eqn:Hd; [|discriminate].
  injection Hint as <-.
  pose proof (NilZero.sus s d Hd) as Hsd.
  unfold str. rewrite DecimalN.Unsigned.to_of.
  assert (Hnil : d <> Decimal.Nil).
  { intros ->. exact (NilZero.uint_of_string_nonnil s Hd). }
  assert (Hun : Decimal.unorm d = d); [|rewrite Hun; exact Hsd].
  destruct d as [|d|d|d|d|d|d|d|d|d|d]; try congruence; try reflexivity.
  destruct Hlead as [H0|Hc].
  - apply String.eqb_eq in H0. rewrite H0 in Hsd.
    destruct d; simpl in Hsd; try discriminate. reflexivity.
  - rewrite Hs in Hsd. simpl in Hsd. injection Hsd as Hc0 _.
    subst c0. discriminate.
Qed.

End PyStrFacts.

Module IpaddressFacts.
Import PyStr PyStrFacts Ipaddress.

Lemma in_octets n : (n < 256)%N -> In n octets.
Proof.
  intros H. unfold octets. apply in_map_iff. exists (N.to_nat n).
  split; [apply N2Nat.id|]. apply in_seq. lia.
Qed.

Lemma octets_print_well : forallb octet_prints_well octets = true.
Proof. vm_compute. reflexivity. Qed.

Lemma octet_facts n :
  (n < 256)%N ->
  _parse_octet (str n) = Ret n /\
  contains "." (str n) = false /\ contains "/" (str n) = false.
Proof.
  intros H. pose proof octets_print_well as Hall.
  rewrite forallb_forall in Hall. specialize (Hall n (in_octets n H)).
  unfold octet_prints_well in Hall.
  apply andb_true_iff in Hall as [Hall Hslash].
  apply andb_true_iff in Hall as [Hparse Hdot].
  apply negb_true_iff in Hslash, Hdot.
  destruct (_parse_octet (str n)) as [m|]; [|discriminate].
  apply N.eqb_eq in Hparse. subst m. auto.
Qed.

Lemma parse_octet_inv s n :
  _parse_octet s = Ret n -> s = str n /\ (n < 256)%N.
Proof.
  unfold _parse_octet. destruct s as [|c0 s']; [discriminate|].
  destruct (negb _); [discriminate|].
  destruct (3 <? _)%nat; [discriminate|].
  destruct (negb (String.eqb (String c0 s') "0") && Ascii.eqb c0 "0") eqn:Hlead;
    [discriminate|].
  destruct (int (String c0 s')) as [m|] eqn:Hint; simpl; [|discriminate].
  destruct (255 <? m)%N eqn:Hle; [discriminate|].
  intros [= ->]. apply N.ltb_ge in Hle. split; [|lia].
  symmetry. eapply str_int_canonical; [reflexivity| |exact Hint].
  apply andb_false_iff in Hlead as [H|H]; [left|right; exact H].
  now apply negb_false_iff in H.
Qed.
End IpaddressFacts.

Module BitFacts.
Open Scope N_scope.

Lemma land_255 y d : d < 256 -> N.land (y * 256 + d) 255 = d.
Proof.
  intros H. change 255 with (N.ones 8). rewrite N.land_ones.
  change (2 ^ 8) with 256. rewrite N.add_comm, N.Div0.mod_add.
  now apply N.mod_small.
Qed.

Lemma shiftr_8 y d : d < 256 -> N.shiftr (y * 256 + d) 8 = y.
Proof.
  intros H. rewrite N.shiftr_div_pow2. change (2 ^ 8) with 256.
  rewrite N.add_comm, N.div_add by lia. rewrite N.div_small by exact H. lia.
Qed.

Lemma land_ldiff a b c : N.land a (N.ldiff b c) = N.ldiff (N.land a b) c.
Proof.
  apply N.bits_inj. intros n.
  rewrite N.land_spec, !N.ldiff_spec, N.land_spec. apply andb_assoc.
Qed.

Lemma land_netmask24 y d :
  y < 16777216 -> d < 256 -> N.land (y * 256 + d) 4294967040 = y * 256.
Proof.
  intros Hy Hd.
  change 4294967040 with (N.ldiff (N.ones 32) (N.ones 8)).
  rewrite land_ldiff, N.land_ones, N.mod_small by (change (2 ^ 32) with 4294967296; lia).
  rewrite N.ldiff_ones_r, (shiftr_8 _ _ Hd), N.shiftl_mul_pow2. reflexivity.
Qed.

Lemma lor_255 y : N.lor (y * 256) 255 = y * 256 + 255.
Proof.
  assert (H0 : N.land (y * 256) 255 = 0).
  { rewrite <- (N.add_0_r (y * 256)). apply land_255. lia. }
  rewrite <- N.lxor_lor by exact H0.
  symmetry. apply N.add_nocarry_lxor. exact H0.
Qed.

Lemma to_bytes_4 a b c d :
  a < 256 -> b < 256 -> c < 256 -> d < 256 ->
  int_to_bytes_big 4 (((a * 256 + b) * 256 + c) * 256 + d) = [a; b; c; d].
Proof.
  intros Ha Hb Hc Hd. unfold int_to_bytes_big.
  change (8 * N.of_nat 3) with (8 + (8 + 8)).
  change (8 * N.of_nat 2) with (8 + 8).
  change (8 * N.of_nat 1) with 8. change (8 * N.of_nat 0) with 0.
  rewrite <- !N.shiftr_shiftr, N.shiftr_0_r.
  rewrite !(shiftr_8 _ d Hd), !(shiftr_8 _ c Hc), (shiftr_8 _ b Hb).
  rewrite (land_255 _ d Hd), (land_255 _ c Hc), (land_255 _ b Hb).
  rewrite <- (N.add_0_l a) at 1. change 0 with (0 * 256) at 1.
  rewrite (land_255 _ a Ha). reflexivity.
Qed.

Lemma from_bytes_4 a b c d :
  int_from_bytes_big [a; b; c; d] = ((a * 256 + b) * 256 + c) * 256 + d.
Proof. reflexivity. Qed.
End BitFacts.

Module BroadcastFacts.
Import PyStr PyStrFacts Ipaddress IpaddressFacts BitFacts.

Lemma append_char (c : ascii) (x : string) : String c "" +:+ x = String c x.
Proof. reflexivity. Qed.

Lemma split_dotted_quad a b c d :
  (a < 256)%N -> (b < 256)%N -> (c < 256)%N -> (d < 256)%N ->
  split "." (dotted_quad a b c d) = [str a; str b; str c; str d].
Proof.
  intros Ha Hb Hc Hd.
  destruct (octet_facts a Ha) as (_ & Hda & _).
  destruct (octet_facts b Hb) as (_ & Hdb & _).
  destruct (octet_facts c Hc) as (_ & Hdc & _).
  destruct (octet_facts d Hd) as (_ & Hdd & _).
  unfold dotted_quad, join.
  rewrite !append_char, !split_app_sep, !split_no_sep by assumption. reflexivity.
Qed.

Lemma dotted_quad_no_slash a b c d :
  (a < 256)%N -> (b < 256)%N -> (c < 256)%N -> (d < 256)%N ->
  contains "/" (dotted_quad a b c d) = false.
Proof.
  intros Ha Hb Hc Hd.
  destruct (octet_facts a Ha) as (_ & _ & Hsa).
  destruct (octet_facts b Hb) as (_ & _ & Hsb).
  destruct (octet_facts c Hc) as (_ & _ & Hsc).
  destruct (octet_facts d Hd) as (_ & _ & Hsd).
  unfold dotted_quad, join.
  rewrite !contains_app, Hsa, Hsb, Hsc, Hsd. reflexivity.
Qed.

Lemma ip_int_from_string_unfold ip_str :
  _ip_int_from_string ip_str =
    if negb (List.length (split "." ip_str) =? 4)%nat then Raise AddressValueError
    else try_except
           (let* bs := map_outcome _parse_octet (split "." ip_str) in
            Ret (int_from_bytes_big bs))
           (fun _ => Raise AddressValueError).
Proof. destruct ip_str; reflexivity. Qed.

Lemma ip_int_dotted_quad a b c d :
  (a < 256)%N -> (b < 256)%N -> (c < 256)%N -> (d < 256)%N ->
  IPv4Address (dotted_quad a b c d) = Ret (((a * 256 + b) * 256 + c) * 256 + d)%N.
Proof.
  intros Ha Hb Hc Hd. unfold IPv4Address.
  rewrite dotted_quad_no_slash by assumption.
  rewrite ip_int_from_string_unfold, split_dotted_quad by assumption.
  destruct (octet_facts a Ha) as (Hpa & _).
  destruct (octet_facts b Hb) as (Hpb & _).
  destruct (octet_facts c Hc) as (Hpc & _).
  destruct (octet_facts d Hd) as (Hpd & _).
  cbn [map_outcome List.length Nat.eqb negb].
  rewrite Hpa, Hpb, Hpc, Hpd. cbn [bind try_except].
  rewrite from_bytes_4. reflexivity.
Qed.

Lemma split_addr_prefix_24 ip :
  _split_addr_prefix (ip +:+ "/24") =
    if contains "/" ip then Raise AddressValueError else Ret (ip, MaskStr "24").
Proof.
  unfold _split_addr_prefix, _split_optional_netmask.
  change (ip +:+ "/24") with (ip +:+ String "/"%char "24").
  rewrite split_app_sep. change (split "/" "24") with ["24"].
  destruct (contains "/" ip) eqn:Hc.
  - apply split_length_contains in Hc. rewrite length_app. simpl.
    destruct (2 <? _)%nat eqn:Hlt; [reflexivity|].
    apply Nat.ltb_ge in Hlt. lia.
  - rewrite (split_no_sep _ _ Hc). reflexivity.
Qed.

(** With [strict=False] the network address is the masked address. *)
Lemma network_init_nonstrict address :
  IPv4Network_init address false =
    (let* '(addr, mask) := _split_addr_prefix address in
     let* packed := IPv4Address addr in
     let* '(nm, plen) := _make_netmask mask in
     Ret {| network_address := N.land packed nm; netmask := nm; prefixlen := plen |}).
Proof.
  unfold IPv4Network_init.
  destruct (_split_addr_prefix address) as [[addr mask]|]; [|reflexivity].
  cbn [bind]. destruct (IPv4Address addr) as [packed|]; [|reflexivity].
  cbn [bind]. destruct (_make_netmask mask) as [[nm plen]|]; [|reflexivity].
  cbn [bind]. destruct (N.eqb_spec (N.land packed nm) packed) as [E|E]; cbn [negb].
  - rewrite E. reflexivity.
  - reflexivity.
Qed.

Lemma network_dotted_quad a b c d :
  (a < 256)%N -> (b < 256)%N -> (c < 256)%N -> (d < 256)%N ->
  exists net,
    IPv4Network_init (dotted_quad a b c d +:+ "/24") false = Ret net /\
    broadcast_address net = (((a * 256 + b) * 256 + c) * 256 + 255)%N.
Proof.
  intros Ha Hb Hc Hd. rewrite network_init_nonstrict.
  rewrite split_addr_prefix_24, dotted_quad_no_slash by assumption.
  cbn [bind]. rewrite ip_int_dotted_quad by assumption. cbn [bind].
  change (_make_netmask (MaskStr "24")) with (Ret (4294967040%N, 24%N)).
  cbn [bind]. rewrite land_netmask24 by lia.
  eexists. split; [reflexivity|].
  unfold broadcast_address, hostmask. cbn [network_address netmask].
  change (N.lxor 4294967040 ALL_ONES) with 255%N. apply lor_255.
Qed.

Lemma broadcast_dotted_quad a b c d :
  (a < 256)%N -> (b < 256)%N -> (c < 256)%N -> (d < 256)%N ->
  get_subnet_broadcast (dotted_quad a b c d) = Ret (dotted_quad a b c 255).
Proof.
  intros Ha Hb Hc Hd. unfold get_subnet_broadcast.
  destruct (network_dotted_quad a b c d Ha Hb Hc Hd) as (net & Hnet & Hb255).
  rewrite Hnet. cbn [bind try_except]. rewrite Hb255.
  unfold _string_from_ip_int. rewrite to_bytes_4 by lia. reflexivity.
Qed.

Lemma broadcast_never_raises ip : exists s, get_subnet_broadcast ip = Ret s.
Proof.
  unfold get_subnet_broadcast.
  destruct (IPv4Network_init _ _); cbn [bind try_except]; eauto.
Qed.

Lemma map_outcome_4 (f : string -> outcome N) l bs :
  List.length l = 4%nat -> map_outcome f l = Ret bs ->
  exists o1 o2 o3 o4 n1 n2 n3 n4,
    l = [o1; o2; o3; o4] /\ bs = [n1; n2; n3; n4] /\
    f o1 = Ret n1 /\ f o2 = Ret n2 /\ f o3 = Ret n3 /\ f o4 = Ret n4.
Proof.
  intros Hlen H.
  destruct l as [|o1 [|o2 [|o3 [|o4 [|]]]]]; simpl in Hlen; try lia.
  cbn [map_outcome] in H.
  destruct (f o1) as [n1|] eqn:E1; [|discriminate].
  destruct (f o2) as [n2|] eqn:E2; [|discriminate].
  destruct (f o3) as [n3|] eqn:E3; [|discriminate].
  destruct (f o4) as [n4|] eqn:E4; [|discriminate].
  cbn in H. injection H as <-.
  exists o1, o2, o3, o4, n1, n2, n3, n4. repeat split; assumption || reflexivity.
Qed.

(** An address that [IPv4Address] accepts is a canonical dotted quad. *)
Lemma ip_address_inv ip packed :
  IPv4Address ip = Ret packed ->
  exists a b c d, (a < 256)%N /\ (b < 256)%N /\ (c < 256)%N /\ (d < 256)%N /\
    ip = dotted_quad a b c d.
Proof.
  unfold IPv4Address. destruct (contains "/" ip); [discriminate|].
  rewrite ip_int_from_string_unfold.
  destruct (Nat.eqb_spec (List.length (split "." ip)) 4) as [Hlen|]; [|discriminate].
  cbn [negb].
  destruct (map_outcome _parse_octet (split "." ip)) as [bs|] eqn:Hmap; [|discriminate].
  intros _.
  destruct (map_outcome_4 _ _ _ Hlen Hmap)
    as (o1 & o2 & o3 & o4 & a & b & c & d & Hsplit & _ & H1 & H2 & H3 & H4).
  apply parse_octet_inv in H1 as [-> Ha], H2 as [-> Hb], H3 as [-> Hc], H4 as [-> Hd].
  exists a, b, c, d. repeat split; try assumption.
  rewrite <- (join_split "." ip), Hsplit. reflexivity.
Qed.

Lemma broadcast_inv ip s :
  get_subnet_broadcast ip = Ret s ->
  s = GLOBAL_BROADCAST \/
  exists a b c d, (a < 256)%N /\ (b < 256)%N /\ (c < 256)%N /\ (d < 256)%N /\
    ip = dotted_quad a b c d.
Proof.
  unfold get_subnet_broadcast. rewrite network_init_nonstrict, split_addr_prefix_24.
  destruct (contains "/" ip); cbn [bind try_except]; [intros [= <-]; now left|].
  destruct (IPv4Address ip) as [packed|] eqn:Hip; cbn [bind try_except];
    [|intros [= <-]; now left].
  intros _. right. eapply ip_address_inv, Hip.
Qed.
End BroadcastFacts.

(** * Facts about the frame decoder *)

Module DecodeFacts.

Lemma pad_values_length l : List.length (pad_values l) = Nat.max 512 (List.length l).
Proof.
  unfold pad_values. destruct (Nat.ltb_spec (List.length l) 512).
  - rewrite length_app, length_replicate. lia.
  - lia.
Qed.

Lemma pad_values_lookup_data l i x :
  l !! i = Some x -> pad_values l !! i = Some x.
Proof.
  intros H. unfold pad_values. destruct (_ <? _)%nat; [|exact H].
  now apply lookup_app_l_Some.
Qed.

Lemma pad_values_lookup_zero l i :
  (List.length l <= i < 512)%nat -> pad_values l !! i = Some 0%N.
Proof.
  intros [Hlo Hhi]. unfold pad_values.
  destruct (Nat.ltb_spec (List.length l) 512); [|lia].
  rewrite lookup_app_r by exact Hlo.
  apply lookup_replicate_2. lia.
Qed.

Lemma decode_binary data :
  (2 < List.length data)%nat ->
  decode (Binary data) = Some (u_id_of data, pad_values (N_of_bytes (skipn 2 data))).
Proof.
  intros H. unfold decode. destruct (Nat.ltb_spec 2 (List.length data)); [reflexivity|lia].
Qed.

Lemma decode_short data :
  (List.length data <= 2)%nat -> decode (Binary data) = None.
Proof.
  intros H. unfold decode. destruct (Nat.ltb_spec 2 (List.length data)); [lia|reflexivity].
Qed.

Lemma N_of_bytes_length bs : List.length (N_of_bytes bs) = List.length bs.
Proof. apply length_map. Qed.

Lemma u_id_big_endian b0 b1 rest :
  u_id_of (b0 :: b1 :: rest) = (256 * Byte.to_N b0 + Byte.to_N b1)%N.
Proof. unfold u_id_of, int_from_bytes_big. simpl. lia. Qed.

Lemma u_id_16_bit data : (u_id_of data < 65536)%N.
Proof.
  assert (Hb : forall b, (Byte.to_N b < 256)%N)
    by (intros b; pose proof (Byte.to_N_bounded b); lia).
  unfold u_id_of, int_from_bytes_big.
  destruct data as [|b0 [|b1 rest]]; simpl; [lia| |].
  - specialize (Hb b0). lia.
  - pose proof (Hb b0). pose proof (Hb b1). lia.
Qed.

End DecodeFacts.

(** * Facts about the engine *)

Lemma initial_consistent : registry_consistent initial_engine.
Proof.
  split.
  - intros u. reflexivity.
  - intros u ch H. simpl in H. rewrite lookup_empty in H. discriminate.
  - intros ch values H. simpl in H. inversion H.
Qed.

Lemma evolves_refl st : evolves st st.
Proof. split; [auto|exists []; now rewrite app_nil_r|auto]. Qed.

Lemma evolves_trans st1 st2 st3 : evolves st1 st2 -> evolves st2 st3 -> evolves st1 st3.
Proof.
  intros [R1 [e1 T1] C1] [R2 [e2 T2] C2]. split; [auto| |auto].
  exists (e1 ++ e2)%list. rewrite T2, T1, app_assoc. reflexivity.
Qed.

Lemma pushes_app tr1 tr2 : pushes (tr1 ++ tr2) = (pushes tr1 ++ pushes tr2)%list.
Proof. apply omap_app. Qed.

Lemma pushes_to_app u tr1 tr2 :
  pushes_to u (tr1 ++ tr2) = (pushes_to u tr1 ++ pushes_to u tr2)%list.
Proof. unfold pushes_to. rewrite pushes_app. apply omap_app. Qed.

(** A step that leaves registry and node alone and pushes nothing. *)
Lemma quiet_evolves st st' evs :
  universe_channels st' = universe_channels st ->
  node_channels st' = node_channels st ->
  trace st' = (trace st ++ evs)%list -> pushes evs = [] ->
  evolves st st'.
Proof.
  intros Hr Hn Ht Hp. split.
  - intros u ch. now rewrite Hr.
  - eauto.
  - intros [C S P]. split.
    + intros u. unfold created_for. rewrite Hn, Hr. apply C.
    + intros u ch. rewrite Hr. apply S.
    + intros ch values. rewrite Ht, pushes_app, Hp, app_nil_r, Hr. apply P.
Qed.

Lemma schedule_app tr1 tr2 : schedule (tr1 ++ tr2) = (schedule tr1 ++ schedule tr2)%list.
Proof. apply List.filter_app. Qed.

Section EngineFacts.
Import DecodeFacts.
Variable sr : list event -> sink_call -> bool.

Lemma handle_message_effect msg st :
  effect sr msg st (handle_message sr msg st).1 (handle_message sr msg st).2.
Proof.
  destruct msg as [data|text].
  - unfold handle_message.
    destruct (Nat.ltb_spec 2 (List.length data)) as [Hlen|Hlen].
    + pose proof (decode_binary data Hlen) as Hdec.
      set (u := u_id_of data) in *.
      set (frame := pad_values (N_of_bytes (skipn 2 data))) in *.
      unfold mbind, log, emit, ensure_registered, registry_get, set_values,
        add_universe, add_channel, registry_set, call_sink, mbind, log, emit.
      engine_simpl.
      destruct (universe_channels st !! u) as [ch|] eqn:Hreg.
      * engine_simpl. rewrite Hreg.
        destruct (sr _ (SetValues _ _)) eqn:Hsr;
          (eapply eff_push with (ch := ch);
           [exact Hdec|exact Hreg|reflexivity|reflexivity|trace_eq|reflexivity|reflexivity|]);
          [right; split; [reflexivity|eauto]|left; reflexivity].
      * engine_simpl.
        destruct (sr _ (AddUniverse u)) eqn:Hsr1.
        { eapply eff_no_push;
            [right; split; [reflexivity|eauto]
            |reflexivity|reflexivity|trace_eq|reflexivity|reflexivity]. }
        engine_simpl.
        destruct (sr _ (AddChannel u _ _ _)) eqn:Hsr2.
        { eapply eff_no_push;
            [right; split; [reflexivity|eauto]
            |reflexivity|reflexivity|trace_eq|reflexivity|reflexivity]. }
        engine_simpl. rewrite lookup_insert_eq.
        destruct (sr _ (SetValues _ _)) eqn:Hsr3;
          (eapply eff_create_push;
           [exact Hdec|exact Hreg|reflexivity|reflexivity|trace_eq|reflexivity|reflexivity|]);
          [right; split; [reflexivity|eauto]|left; reflexivity].
    + eapply eff_no_push with (evs := []);
        [left; split; [now apply decode_short|reflexivity]
        |reflexivity|reflexivity|engine_simpl; now rewrite app_nil_r|reflexivity|reflexivity].
  - eapply eff_no_push;
      [left; split; reflexivity|reflexivity|reflexivity|trace_eq|reflexivity|reflexivity].
Qed.

Lemma effect_evolves msg st r st' : effect sr msg st r st' -> evolves st st'.
Proof.
  intros [evs _ Hr Hn Ht Hsch Hp
         |u frame ch evs Hdec Hreg Hr Hn Ht Hsch Hp _
         |u frame evs Hdec Hreg Hr Hn Ht Hsch Hp _].
  - eapply quiet_evolves; eauto.
  - split.
    + intros u' ch'. now rewrite Hr.
    + eauto.
    + intros [C S P]. split.
      * intros u'. unfold created_for. rewrite Hn, Hr. apply C.
      * intros u' ch'. rewrite Hr. apply S.
      * intros ch' values. rewrite Ht, pushes_app, Hp, Hr.
        rewrite elem_of_app, list_elem_of_singleton.
        intros [Hold|[= -> ->]]; [exact (P _ _ Hold)|].
        destruct (S u ch Hreg) as [-> _]. exact Hreg.
  - split.
    + intros u' ch' H. rewrite Hr.
      destruct (decide (u = u')) as [<-|Hne]; [congruence|].
      now rewrite lookup_insert_ne.
    + eauto.
    + intros [C S P]. split.
      * intros u'. unfold created_for. rewrite Hn, Hr, filter_app.
        fold (created_for u' st). rewrite C.
        destruct (decide (u = u')) as [<-|Hne].
        -- rewrite Hreg, lookup_insert_eq. rewrite filter_cons_True by reflexivity.
           reflexivity.
        -- rewrite lookup_insert_ne by exact Hne.
           rewrite filter_cons_False by (simpl; congruence).
           rewrite filter_nil. apply app_nil_r.
      * intros u' ch'. rewrite Hr.
        destruct (decide (u = u')) as [<-|Hne].
        -- rewrite lookup_insert_eq. intros [= <-]. auto.
        -- rewrite lookup_insert_ne by exact Hne. apply S.
      * intros ch' values. rewrite Ht, pushes_app, Hp, Hr.
        rewrite elem_of_app, list_elem_of_singleton.
        intros [Hold|[= -> ->]].
        -- specialize (P _ _ Hold).
           destruct (decide (u = ch_universe ch')) as [E|Hne]; [congruence|].
           now rewrite lookup_insert_ne.
        -- simpl. apply lookup_insert_eq.
Qed.

Lemma handle_message_evolves msg st : evolves st (handle_message sr msg st).2.
Proof. eapply effect_evolves, handle_message_effect. Qed.

Lemma consume_cons msg rest st :
  consume sr (msg :: rest) st =
    match handle_message sr msg st with
    | (Ret _, st1) => consume sr rest st1
    | (Raise e, st1) => (Raise e, st1)
    end.
Proof. reflexivity. Qed.

Lemma consume_evolves msgs st : evolves st (consume sr msgs st).2.
Proof.
  revert st. induction msgs as [|msg rest IH]; intros st.
  - apply evolves_refl.
  - rewrite consume_cons. pose proof (handle_message_evolves msg st) as H.
    destruct (handle_message sr msg st) as [[[]|e] st1]; simpl in *.
    + eapply evolves_trans; [exact H|apply IH].
    + exact H.
Qed.

Lemma frames_for_cons u msg rest :
  frames_for u (msg :: rest) = (frames_for u [msg] ++ frames_for u rest)%list.
Proof. unfold frames_for. simpl. destruct (decode msg) as [[u' f]|]; [|reflexivity].
       destruct (u' =? u)%N; reflexivity. Qed.

(** The pushes one message adds for universe [u] are the frame it carries
    for [u], unless a library call raised before the push. *)
Lemma effect_pushes u msg st r st' :
  registry_consistent st -> effect sr msg st r st' ->
  pushes_to u (trace st') = (pushes_to u (trace st) ++ frames_for u [msg])%list \/
  (pushes_to u (trace st') = pushes_to u (trace st) /\
   r = Raise LibraryError /\ exists tr c, sr tr c = true).
Proof.
  intros [C S P]
         [evs Hwhy Hr Hn Ht Hsch Hp
         |u' frame ch evs Hdec Hreg Hr Hn Ht Hsch Hp _
         |u' frame evs Hdec Hreg Hr Hn Ht Hsch Hp _];
    rewrite Ht, pushes_to_app;
    assert (Hpt : pushes_to u evs =
                  omap (fun p : channel * list N =>
                          if (ch_universe p.1 =? u)%N then Some p.2 else None)
                       (pushes evs)) by reflexivity;
    rewrite Hpt, Hp; clear Hpt.
  - destruct Hwhy as [[Hdec _]|Hraise].
    + left. unfold frames_for. simpl. rewrite Hdec. reflexivity.
    + right. simpl. rewrite app_nil_r. auto.
  - left. destruct (S u' ch Hreg) as [Hu _].
    unfold frames_for. simpl. rewrite Hdec, Hu. reflexivity.
  - left. unfold frames_for. simpl. rewrite Hdec. reflexivity.
Qed.

Lemma consume_pushes u msgs st :
  registry_consistent st ->
  exists done rest,
    msgs = (done ++ rest)%list /\
    pushes_to u (trace (consume sr msgs st).2) =
      (pushes_to u (trace st) ++ frames_for u done)%list /\
    (rest = [] \/ exists tr c, sr tr c = true).
Proof.
  revert st. induction msgs as [|msg msgs IH]; intros st Hc.
  - exists [], []. simpl. rewrite app_nil_r. auto.
  - rewrite consume_cons.
    pose proof (handle_message_effect msg st) as Heff.
    pose proof (effect_evolves _ _ _ _ Heff) as Hev.
    pose proof (effect_pushes u _ _ _ _ Hc Heff) as Hp.
    assert (Hraised : forall e, (handle_message sr msg st).1 = Raise e ->
                                exists tr c, sr tr c = true).
    { intros e He. destruct Heff as [? [[_ ?]|[_ ?]]|? ? ? ? ? ? ? ? ? ? ? [?|[_ ?]]
                                    |? ? ? ? ? ? ? ? ? ? [?|[_ ?]]]; auto; congruence. }
    destruct (handle_message sr msg st) as [[[]|e] st1]; simpl in *.
    + destruct Hp as [Hp|(_ & ? & _)]; [|discriminate].
      destruct (IH st1 (ev_consistent _ _ Hev Hc)) as (done & rest & -> & Hpush & Hrest).
      exists (msg :: done), rest. split; [reflexivity|]. split; [|exact Hrest].
      rewrite Hpush, Hp, frames_for_cons, app_assoc. reflexivity.
    + destruct Hp as [Hp|(Hp & _)].
      * exists [msg], msgs. split; [reflexivity|]. split; [exact Hp|]. right. eauto.
      * exists [], (msg :: msgs). split; [reflexivity|]. split; [|right; eauto].
        simpl. now rewrite app_nil_r.
Qed.


(** *** Sessions and the reconnect loop *)

Lemma emit_evolves e st :
  (forall c, e <> EvSink c) -> evolves st (emit e st).2.
Proof.
  intros He. eapply quiet_evolves with (evs := [e]); try reflexivity.
  destruct e as [c| | |]; try reflexivity. now destruct (He c).
Qed.

Lemma session_evolves uri c st : evolves st (session sr uri c st).2.
Proof.
  unfold session, mbind.
  pose proof (emit_evolves (EvConnect uri) st) as H1.
  destruct (emit (EvConnect uri) st) as [[[]|e] st1] eqn:E1;
    [|injection E1 as E1 _; discriminate].
  simpl in H1. specialize (H1 ltac:(discriminate)).
  destruct c as [e|msgs fin]; [exact H1|].
  unfold log. pose proof (emit_evolves (EvLog LogConnected) st1) as H2.
  destruct (emit (EvLog LogConnected) st1) as [[[]|e] st2] eqn:E2;
    [|injection E2 as E2 _; discriminate].
  simpl in H2. specialize (H2 ltac:(discriminate)).
  pose proof (consume_evolves msgs st2) as H3.
  destruct (consume sr msgs st2) as [[[]|e] st3]; simpl in *.
  - destruct fin; simpl; eauto using evolves_trans.
  - eauto using evolves_trans.
Qed.

Lemma on_error_spec e st :
  (on_error e st).1 = Ret tt /\
  universe_channels (on_error e st).2 = universe_channels st /\
  node_channels (on_error e st).2 = node_channels st /\
  exists l, trace (on_error e st).2 = (trace st ++ [EvLog l; EvSleep 5])%list.
Proof.
  destruct e; simpl; repeat split; eexists; rewrite <- app_assoc; reflexivity.
Qed.

Lemma attempt_spec uri c st :
  match session sr uri c st with
  | (Ret _, st1) => attempt sr uri c st = (Ret tt, st1)
  | (Raise e, st1) => attempt sr uri c st = on_error e st1
  end.
Proof.
  unfold attempt. destruct (session sr uri c st) as [[[]|e] st1]; reflexivity.
Qed.

Lemma attempt_returns uri c st : (attempt sr uri c st).1 = Ret tt.
Proof.
  pose proof (attempt_spec uri c st) as H.
  destruct (session sr uri c st) as [[[]|e] st1]; rewrite H; [reflexivity|].
  apply on_error_spec.
Qed.

Lemma attempt_evolves uri c st : evolves st (attempt sr uri c st).2.
Proof.
  pose proof (attempt_spec uri c st) as H.
  pose proof (session_evolves uri c st) as Hs.
  destruct (session sr uri c st) as [[[]|e] st1]; rewrite H; simpl in *; [exact Hs|].
  eapply evolves_trans; [exact Hs|].
  destruct (on_error_spec e st1) as (_ & Hr & Hn & l & Ht).
  eapply quiet_evolves; eauto.
Qed.

Lemma reconnect_loop_cons uri c rest st :
  reconnect_loop sr uri (c :: rest) st =
    reconnect_loop sr uri rest (attempt sr uri c st).2.
Proof.
  simpl. unfold mbind. pose proof (attempt_returns uri c st) as H.
  destruct (attempt sr uri c st) as [[[]|e] st1]; [reflexivity|discriminate].
Qed.

Lemma reconnect_loop_evolves uri script st :
  evolves st (reconnect_loop sr uri script st).2.
Proof.
  revert st. induction script as [|c rest IH]; intros st.
  - apply evolves_refl.
  - rewrite reconnect_loop_cons.
    eapply evolves_trans; [apply attempt_evolves|apply IH].
Qed.

(** No connection error ends the loop: it comes back for the next
    connection whatever happened. *)
Lemma reconnect_loop_returns uri script st :
  (reconnect_loop sr uri script st).1 = Ret tt.
Proof.
  revert st. induction script as [|c rest IH]; intros st; [reflexivity|].
  rewrite reconnect_loop_cons. apply IH.
Qed.

Lemma handle_message_schedule msg st :
  schedule (trace (handle_message sr msg st).2) = schedule (trace st).
Proof.
  destruct (handle_message_effect msg st)
    as [evs _ _ _ Ht Hs _|u f ch evs _ _ _ _ Ht Hs _ _|u f evs _ _ _ _ Ht Hs _ _];
    rewrite Ht, schedule_app, Hs; apply app_nil_r.
Qed.

Lemma consume_schedule msgs st :
  schedule (trace (consume sr msgs st).2) = schedule (trace st).
Proof.
  revert st. induction msgs as [|msg rest IH]; intros st; [reflexivity|].
  rewrite consume_cons. pose proof (handle_message_schedule msg st) as H.
  destruct (handle_message sr msg st) as [[[]|e] st1]; simpl in *.
  - now rewrite IH.
  - exact H.
Qed.

Lemma session_schedule uri c st :
  schedule (trace (session sr uri c st).2) = (schedule (trace st) ++ [EvConnect uri])%list.
Proof.
  unfold session, mbind, log, emit, raise.
  destruct c as [e|msgs fin]; simpl.
  - apply schedule_app.
  - match goal with |- context [consume sr msgs ?s] =>
      pose proof (consume_schedule msgs s) as H;
      destruct (consume sr msgs s) as [[[]|e] st3] end; simpl in *.
    + destruct fin; simpl; rewrite H, !schedule_app; simpl; now rewrite app_nil_r.
    + rewrite H, !schedule_app; simpl; now rewrite app_nil_r.
Qed.

(** A pass that ends in an exception sleeps five seconds; a pass whose
    iteration ends normally does not sleep at all. *)
Lemma attempt_schedule uri c st :
  schedule (trace (attempt sr uri c st).2) =
    (schedule (trace st) ++ pass uri (raised (session sr uri c st).1))%list.
Proof.
  pose proof (attempt_spec uri c st) as H.
  pose proof (session_schedule uri c st) as Hs.
  destruct (session sr uri c st) as [[[]|e] st1]; rewrite H; simpl in *.
  - exact Hs.
  - destruct (on_error_spec e st1) as (_ & _ & _ & l & Ht).
    rewrite Ht, schedule_app, Hs, <- app_assoc. reflexivity.
Qed.

(** Every connection of the script is attempted, and every delay is five
    seconds. *)
Lemma reconnect_loop_schedule uri script st :
  exists failed : list bool,
    List.length failed = List.length script /\
    schedule (trace (reconnect_loop sr uri script st).2) =
      (schedule (trace st) ++ flat_map (pass uri) failed)%list.
Proof.
  revert st. induction script as [|c rest IH]; intros st.
  - exists []. simpl. now rewrite app_nil_r.
  - rewrite reconnect_loop_cons.
    destruct (IH (attempt sr uri c st).2) as (failed & Hlen & Hs).
    exists (raised (session sr uri c st).1 :: failed). split; [simpl; lia|].
    rewrite Hs, attempt_schedule, <- app_assoc. reflexivity.
Qed.

(** *** Start-up *)

Lemma target_ip_returns config my_ip :
  exists t, target_ip config my_ip = Ret t.
Proof.
  unfold target_ip. destruct (py_eq_str _ _); [|eauto].
  destruct (BroadcastFacts.broadcast_never_raises my_ip) as [b ->]. simpl. eauto.
Qed.

(** What follows the creation of the node only adds to the trace. *)
Lemma connect_phase_extends config script st :
  exists evs,
    trace ((do u <- lift (uri config) ;
            do name <- lift (getitem config "node_name") ;
            log (LogConnecting name) ;;
            reconnect_loop sr u script) st).2 = (trace st ++ evs)%list.
Proof.
  unfold mbind, lift, log, emit.
  destruct (uri config) as [u|]; [|exists []; simpl; now rewrite app_nil_r].
  destruct (getitem config "node_name") as [name|];
    [|exists []; simpl; now rewrite app_nil_r].
  match goal with |- context [reconnect_loop sr u script ?s] =>
    destruct (ev_trace _ _ (reconnect_loop_evolves u script s)) as [evs Hevs] end.
  rewrite Hevs. cbn [trace]. rewrite <- app_assoc. eauto.
Qed.

Lemma run_dmx_client_startup config my_ip script :
  exists t pre post,
    target_ip config my_ip = Ret t /\
    trace (run_dmx_client sr config my_ip script initial_engine).2 =
      (pre ++ EvSink (CreateNode t 6454 30 1) :: post)%list /\
    schedule pre = [].
Proof.
  destruct (target_ip_returns config my_ip) as [t Ht].
  exists t.
  exists ((if py_eq_str (get_default config "artnet_ip" (PyStr GLOBAL_BROADCAST))
                        GLOBAL_BROADCAST
           then [EvLog (LogBroadcast (py_format t))] else []) ++
          [EvLog (LogStart t my_ip)])%list.
  unfold run_dmx_client. rewrite Ht.
  unfold mbind at 1 2 3 4. unfold lift at 1.
  destruct (py_eq_str _ _); cbn [log emit ret trace initial_engine
                                  universe_channels node_channels app];
    unfold call_sink; cbn [trace universe_channels node_channels];
    (destruct (sr _ (CreateNode _ _ _ _));
     [exists []; auto
     |match goal with |- context [mbind (lift (uri config)) ?k ?s] =>
        destruct (connect_phase_extends config script s) as [evs Hevs];
        exists evs; rewrite Hevs end;
      cbn [trace app]; auto]).
Qed.
End EngineFacts.

(** ** The streaming URI *)

Module UriFacts.
Import PyStr.

Lemma replace_from_absent old new s :
  occurs old s = false -> replace_from old new 0 s = s.
Proof.
  induction s as [|c s IH]; [reflexivity|].
  cbn [occurs replace_from]. intros H. apply orb_false_iff in H as [-> H].
  now rewrite IH.
Qed.

Lemma append_cons c s t : String c s +:+ t = String c (s +:+ t).
Proof. reflexivity. Qed.

Lemma append_nil t : "" +:+ t = t.
Proof. reflexivity. Qed.

Lemma replace_http host :
  occurs "http://" host = false ->
  replace "http://" "ws://" ("http://" +:+ host) = "ws://" +:+ host.
Proof.
  intros H. unfold replace. rewrite !append_cons, append_nil. cbn.
  rewrite replace_from_absent by exact H. reflexivity.
Qed.

Lemma replace_https host :
  occurs "http://" host = false ->
  replace "http://" "ws://" ("https://" +:+ host) = "https://" +:+ host.
Proof.
  intros H. unfold replace. rewrite !append_cons, append_nil. cbn.
  rewrite replace_from_absent by exact H. reflexivity.
Qed.
End UriFacts.

(** * The frame decoder *)

Section DecoderProperties.
Import DecodeFacts.

(** The frame of a binary message with at most 512 data bytes has exactly
    512 entries: the data bytes in order, then zeros. *)
Lemma decode_frame_padded data u frame :
  (List.length data <= 514)%nat ->
  decode (Binary data) = Some (u, frame) ->
  List.length frame = 512%nat /\
  (forall i b, skipn 2 data !! i = Some b -> frame !! i = Some (Byte.to_N b)) /\
  (forall i, (List.length data - 2 <= i < 512)%nat -> frame !! i = Some 0%N).
Proof.
  intros Hlen Hdec. unfold decode in Hdec.
  destruct (Nat.ltb_spec 2 (List.length data)) as [Hgt|]; [|discriminate].
  injection Hdec as <- <-. split; [|split].
  - rewrite pad_values_length, N_of_bytes_length, length_skipn. lia.
  - intros i b Hb. apply pad_values_lookup_data.
    unfold N_of_bytes. rewrite list_lookup_fmap, Hb. reflexivity.
  - intros i Hi. apply pad_values_lookup_zero.
    rewrite N_of_bytes_length, length_skipn. exact Hi.
Qed.

(** A frame is never shortened: it has as many entries as the message has
    data bytes whenever these are more than 512. *)
Lemma decode_frame_length data u frame :
  decode (Binary data) = Some (u, frame) ->
  List.length frame = Nat.max 512 (List.length data - 2).
Proof.
  intros Hdec. unfold decode in Hdec.
  destruct (2 <? List.length data)%nat; [|discriminate].
  injection Hdec as <- <-.
  now rewrite pad_values_length, N_of_bytes_length, length_skipn.
Qed.

End DecoderProperties.

(** C1 (the code departs from it).  The claim: for every binary message of
    length L > 2 the decoded frame has exactly 512 entries, the first
    min(L-2, 512) being the data bytes and the others zero, extra bytes
    being cut off.  The code only pads: for the 515-byte message made of the
    header 00 01 and 513 bytes FF, the decoder yields universe 1 with all
    513 values, and these 513 values are what the handler hands to
    [set_values] of a channel it created 512 wide. *)
Theorem oversized_frame_is_not_truncated :
  decode oversized_message = Some (1%N, replicate 513 255%N) /\
  List.length (replicate 513 255%N) = 513%nat /\
  pushes (trace (handle_message reliable_sink oversized_message initial_engine).2) =
    [(new_channel 1 initial_engine, replicate 513 255%N)] /\
  ch_width (new_channel 1 initial_engine) = 512%Z.
Proof. repeat split; vm_compute; reflexivity. Qed.

(** C6.  A binary message of at most two bytes carries no frame, and
    handling it returns normally and leaves the whole engine as it was:
    nothing is registered, created, pushed or logged. *)
Theorem short_binary_message_ignored
    (sink_raises : list event -> sink_call -> bool) (data : list byte) (st : engine) :
  (List.length data <= 2)%nat ->
  decode (Binary data) = None /\
  handle_message sink_raises (Binary data) st = (Ret tt, st).
Proof.
  intros Hlen. split; [now apply DecodeFacts.decode_short|].
  unfold handle_message.
  destruct (Nat.ltb_spec 2 (List.length data)); [lia|reflexivity].
Qed.

Lemma short_binary_message_ignored_witness :
  decode (Binary [x00; x01]%byte) = None /\
  handle_message reliable_sink (Binary [x00; x01]%byte) initial_engine =
    (Ret tt, initial_engine).
Proof.
  apply (short_binary_message_ignored reliable_sink [x00; x01]%byte initial_engine).
  simpl. lia.
Defined.

(** C7.  The universe id of a frame is its first two bytes read as a
    big-endian unsigned 16-bit integer; the bytes 00 01 FF decode to
    universe 1 and a frame of 255 followed by 511 zeros. *)
Theorem universe_id_is_big_endian :
  (forall b0 b1 b2 rest,
     decode (Binary (b0 :: b1 :: b2 :: rest)) =
       Some ((256 * Byte.to_N b0 + Byte.to_N b1)%N,
             pad_values (N_of_bytes (b2 :: rest)))) /\
  (forall data, (u_id_of data < 65536)%N) /\
  decode (Binary [x00; x01; xff]%byte) = Some (1%N, 255%N :: replicate 511 0%N).
Proof.
  split; [|split].
  - intros b0 b1 b2 rest.
    rewrite DecodeFacts.decode_binary by (simpl; lia).
    now rewrite DecodeFacts.u_id_big_endian.
  - apply DecodeFacts.u_id_16_bit.
  - vm_compute. reflexivity.
Qed.

(** * The subnet broadcast address *)

(** C3.  On a well-formed dotted quad [a.b.c.d] (four decimal octets, each
    at most 255 and written without a leading zero) [get_subnet_broadcast]
    returns [a.b.c.255]; on every other string it returns
    [255.255.255.255]; it returns on every input and never raises.  In
    particular it maps [192.168.178.50] to [192.168.178.255]. *)
Theorem get_subnet_broadcast_spec :
  (forall a b c d : N,
     (a < 256)%N -> (b < 256)%N -> (c < 256)%N -> (d < 256)%N ->
     get_subnet_broadcast (dotted_quad a b c d) = Ret (dotted_quad a b c 255)) /\
  (forall ip : string,
     ~ (exists a b c d : N,
          (a < 256)%N /\ (b < 256)%N /\ (c < 256)%N /\ (d < 256)%N /\
          ip = dotted_quad a b c d) ->
     get_subnet_broadcast ip = Ret GLOBAL_BROADCAST) /\
  (forall ip : string, exists s, get_subnet_broadcast ip = Ret s) /\
  get_subnet_broadcast "192.168.178.50" = Ret "192.168.178.255".
Proof.
  split; [|split; [|split]].
  - apply BroadcastFacts.broadcast_dotted_quad.
  - intros ip Hmal.
    destruct (BroadcastFacts.broadcast_never_raises ip) as [s Hs].
    destruct (BroadcastFacts.broadcast_inv ip s Hs) as [->|Hquad]; [exact Hs|].
    contradiction.
  - apply BroadcastFacts.broadcast_never_raises.
  - apply (BroadcastFacts.broadcast_dotted_quad 192 168 178 50); reflexivity.
Qed.

Lemma get_subnet_broadcast_spec_witness :
  get_subnet_broadcast (dotted_quad 10 0 0 1) = Ret (dotted_quad 10 0 0 255) /\
  get_subnet_broadcast "10.0.0" = Ret GLOBAL_BROADCAST.
Proof.
  destruct get_subnet_broadcast_spec as (Hquad & Hmal & _ & _). split.
  - apply Hquad; reflexivity.
  - apply Hmal. intros (a & b & c & d & Ha & Hb & Hc & Hd & E).
    apply (f_equal (PyStr.split ".")) in E.
    rewrite BroadcastFacts.split_dotted_quad in E by assumption.
    discriminate E.
Defined.

(** * The ArtNet target *)

(** C2.  When the configuration holds an [artnet_ip], the target is
    rewritten to the subnet broadcast address of the local address exactly
    when that value is the string [255.255.255.255], and is the configured
    value itself otherwise; the node is created with this target before any
    connection is opened. *)
Theorem broadcast_fixup
    (sink_raises : list event -> sink_call -> bool)
    (config : gmap string pyval) (my_ip : string) (script : list connection)
    (v : pyval) :
  config !! "artnet_ip" = Some v ->
  exists t,
    target_ip config my_ip = Ret t /\
    (v = PyStr "255.255.255.255" ->
     exists b, get_subnet_broadcast my_ip = Ret b /\ t = PyStr b) /\
    (v <> PyStr "255.255.255.255" -> t = v) /\
    exists pre post,
      trace (run_dmx_client sink_raises config my_ip script initial_engine).2 =
        (pre ++ EvSink (CreateNode t 6454 30 1) :: post)%list /\
      schedule pre = [].
Proof.
  intros Hcfg.
  destruct (run_dmx_client_startup sink_raises config my_ip script)
    as (t & pre & post & Ht & Htrace & Hpre).
  exists t. split; [exact Ht|]. split; [|split; [|eauto]].
  - intros ->. unfold target_ip, get_default in Ht. rewrite Hcfg in Ht.
    simpl in Ht. destruct (get_subnet_broadcast my_ip) as [b|]; [|discriminate].
    exists b. split; [reflexivity|]. simpl in Ht. congruence.
  - intros Hne. unfold target_ip, get_default in Ht. rewrite Hcfg in Ht.
    destruct (py_eq_str v "255.255.255.255") eqn:Heq; [|congruence].
    destruct v as [| | |s]; try discriminate.
    apply String.eqb_eq in Heq. congruence.
Qed.

Lemma broadcast_fixup_witness :
  target_ip broadcast_config "192.168.1.20" = Ret (PyStr "192.168.1.255") /\
  target_ip unicast_config "192.168.1.20" = Ret (PyStr "10.0.0.99").
Proof.
  split.
  - destruct (broadcast_fixup reliable_sink broadcast_config "192.168.1.20" []
                (PyStr "255.255.255.255") eq_refl) as (t & Ht & Hrew & _).
    destruct (Hrew eq_refl) as (b & Hb & ->).
    vm_compute in Hb. injection Hb as <-. exact Ht.
  - destruct (broadcast_fixup reliable_sink unicast_config "192.168.1.20" []
                (PyStr "10.0.0.99") eq_refl) as (t & Ht & _ & Hkeep & _).
    rewrite (Hkeep ltac:(discriminate)) in Ht. exact Ht.
Defined.

(** C10.  A configuration without the [artnet_ip] key does not make the
    client fail: the target is the subnet broadcast address of the local
    address, the same as with [255.255.255.255] configured explicitly. *)
Theorem missing_artnet_ip_defaults_to_broadcast
    (config : gmap string pyval) (my_ip : string) :
  config !! "artnet_ip" = None ->
  (exists b, get_subnet_broadcast my_ip = Ret b /\
             target_ip config my_ip = Ret (PyStr b)) /\
  target_ip config my_ip =
    target_ip (<["artnet_ip" := PyStr "255.255.255.255"]> config) my_ip.
Proof.
  intros Hcfg. unfold target_ip, get_default.
  rewrite Hcfg, lookup_insert_eq. simpl. split; [|reflexivity].
  destruct (BroadcastFacts.broadcast_never_raises my_ip) as [b Hb].
  exists b. rewrite Hb. auto.
Qed.

Lemma missing_artnet_ip_defaults_to_broadcast_witness :
  target_ip https_config "192.168.1.20" = target_ip broadcast_config "192.168.1.20".
Proof.
  apply (missing_artnet_ip_defaults_to_broadcast https_config "192.168.1.20").
  reflexivity.
Defined.

(** * The streaming URI *)

Section UriProperties.
Import UriFacts.

(** A server URL that starts with [http://] and holds no further
    [http://] has its scheme replaced by [ws://]. *)
Lemma uri_http config host secret :
  occurs "http://" host = false ->
  config !! "server_url" = Some (PyStr ("http://" +:+ host)) ->
  config !! "device_secret" = Some (PyStr secret) ->
  uri config = Ret (("ws://" +:+ host) +:+ "/dmx?token=" +:+ secret).
Proof.
  intros Hhost Hurl Hsecret. unfold uri, ws_base, getitem.
  rewrite Hurl, Hsecret. cbn [bind]. now rewrite replace_http.
Qed.

(** A server URL that starts with [https://] is left as it is. *)
Lemma uri_https config host secret :
  occurs "http://" host = false ->
  config !! "server_url" = Some (PyStr ("https://" +:+ host)) ->
  config !! "device_secret" = Some (PyStr secret) ->
  uri config = Ret (("https://" +:+ host) +:+ "/dmx?token=" +:+ secret).
Proof.
  intros Hhost Hurl Hsecret. unfold uri, ws_base, getitem.
  rewrite Hurl, Hsecret. cbn [bind]. now rewrite replace_https.
Qed.

End UriProperties.

(** C4 (the code departs from it).  The claim: the URI is the server URL
    with [http] replaced by [ws] and [https] by [wss], followed by
    [/dmx?token=] and the device secret.  The code replaces the text
    [http://] only, which an [https://] URL does not contain: for the server
    URL [https://example.com] the URI keeps the scheme [https], and that is
    the URI the client connects to. *)
Theorem https_scheme_is_not_rewritten :
  uri https_config = Ret "https://example.com/dmx?token=s3cr3t" /\
  uri https_config <> Ret "wss://example.com/dmx?token=s3cr3t" /\
  schedule (trace (run_dmx_client reliable_sink https_config "192.168.1.20"
                     [Refused LibraryError] initial_engine).2) =
    [EvConnect "https://example.com/dmx?token=s3cr3t"; EvSleep 5].
Proof.
  split; [|split].
  - vm_compute. reflexivity.
  - vm_compute. discriminate.
  - vm_compute. reflexivity.
Qed.

(** * The universe registry and the order of pushes *)

Section RegistryProperties.
Variable sink_raises : list event -> sink_call -> bool.


(** The state in which the messages of a connection are consumed. *)
Lemma session_state uri msgs fin st :
  (session sink_raises uri (Established msgs fin) st).2 =
    (consume sink_raises msgs
       (emit (EvLog LogConnected) (emit (EvConnect uri) st).2).2).2.
Proof.
  unfold session, mbind, log. cbn [emit fst snd].
  destruct (consume sink_raises msgs _) as [[[]|e] st3]; [|reflexivity].
  destruct fin; reflexivity.
Qed.


End RegistryProperties.



(** C9.  Within one connection, opened at any point of a run, the value
    lists pushed to the channels of a universe are the frames that the
    handled messages carry for that universe, in the order of arrival; the
    handled messages are all the messages of the connection unless a call
    into the ArtNet library raised, which ends the connection. *)
Theorem frames_pushed_in_arrival_order
    (sink_raises : list event -> sink_call -> bool)
    (uri : string) (script : list connection)
    (msgs : list message) (fin : stream_end) (u : N) :
  let st := (reconnect_loop sink_raises uri script initial_engine).2 in
  let st' := (session sink_raises uri (Established msgs fin) st).2 in
  exists done rest,
    msgs = (done ++ rest)%list /\
    pushes_to u (trace st') = (pushes_to u (trace st) ++ frames_for u done)%list /\
    (rest = [] \/ exists tr c, sink_raises tr c = true).
Proof.
  intros st st'. subst st'. rewrite session_state.
  set (st0 := (emit (EvLog LogConnected) (emit (EvConnect uri) st).2).2).
  assert (Hc : registry_consistent st0).
  { eapply ev_consistent; [apply emit_evolves; discriminate|].
    eapply ev_consistent; [apply emit_evolves; discriminate|].
    eapply ev_consistent; [apply reconnect_loop_evolves|apply initial_consistent]. }
  destruct (consume_pushes sink_raises u msgs st0 Hc) as (done & rest & Hm & Hp & Hr).
  exists done, rest. split; [exact Hm|]. split; [|exact Hr].
  rewrite Hp. subst st0. cbn [emit trace snd].
  rewrite !pushes_to_app. cbn. now rewrite !app_nil_r.
Qed.

(** * The reconnect loop *)

(** C8 (the code departs from it).  The claim: after every closure or
    error of a connection the client waits five seconds and connects again,
    without end.  That holds when the connection ends in an exception
    ([attempt_schedule], [reconnect_loop_schedule], [reconnect_loop_returns]);
    but when the iteration over the messages simply ends, as it does when
    the peer closes the connection normally, no handler runs: the client
    connects again at once, with no delay between the two attempts. *)
Theorem clean_close_reconnects_without_delay :
  forall (sink_raises : list event -> sink_call -> bool) (uri : string),
    schedule (trace (reconnect_loop sink_raises uri
                       [Established [] EndOfStream; Established [] EndOfStream]
                       initial_engine).2) =
      [EvConnect uri; EvConnect uri] /\
    schedule (trace (reconnect_loop sink_raises uri
                       [Established [] (Broken ConnectionClosed);
                        Established [] EndOfStream]
                       initial_engine).2) =
      [EvConnect uri; EvSleep 5; EvConnect uri].
Proof. intros sink_raises uri. split; reflexivity. Qed.

(** * Further properties of the code *)

(** ** Facts about [get_mac_address] *)

Module MacFacts.
Import PyStr PyStrFacts.

Lemma append_snoc_assoc s c t : (s +:+ String c "") +:+ t = s +:+ String c t.
Proof.
  induction s as [|a s IH]; [reflexivity|].
  rewrite !UriFacts.append_cons. now rewrite IH.
Qed.

Lemma append_empty_r s : s +:+ "" = s.
Proof.
  induction s as [|a s IH]; [reflexivity|].
  rewrite !UriFacts.append_cons. now rewrite IH.
Qed.

Lemma append_assoc s t u : (s +:+ t) +:+ u = s +:+ (t +:+ u).
Proof.
  induction s as [|a s IH]; [reflexivity|].
  rewrite !UriFacts.append_cons. now rewrite IH.
Qed.

Lemma hex_fixed_2 m :
  hex_fixed 2 m =
    String (hex_char ((m / 16) mod 16)) (String (hex_char (m mod 16)) "").
Proof. reflexivity. Qed.

Lemma byte_digits n :
  ((n mod 256 / 16) mod 16 = (n / 16) mod 16 /\ (n mod 256) mod 16 = n mod 16 /\
   n / 16 / 16 = n / 256)%N.
Proof.
  rewrite N.Div0.div_div. change (16 * 16)%N with 256%N.
  change 256%N with (16 * 16)%N at 1 2.
  rewrite N.Div0.mod_mul_r.
  repeat split.
  - rewrite N.mul_comm, N.div_add by lia.
    rewrite (N.div_small (n mod 16)) by (apply N.mod_lt; lia).
    rewrite N.add_0_l. apply N.Div0.mod_mod.
  - rewrite N.mul_comm, N.Div0.mod_add. apply N.Div0.mod_mod.
Qed.

(** Two more digits in front are one more byte in front. *)
Lemma hex_fixed_byte k n :
  hex_fixed (S (S k)) n = hex_fixed k (n / 256) +:+ hex_fixed 2 (n mod 256).
Proof.
  destruct (byte_digits n) as (H1 & H2 & H3).
  rewrite hex_fixed_2, H1, H2. cbn [hex_fixed]. rewrite H3.
  now rewrite append_snoc_assoc.
Qed.

Lemma to_bytes_snoc k n :
  int_to_bytes_big (S k) n = (int_to_bytes_big k (n / 256) ++ [(n mod 256)%N])%list.
Proof.
  revert n. induction k as [|k IH]; intros n.
  - cbn. change 255%N with (N.ones 8). rewrite N.land_ones. reflexivity.
  - change (int_to_bytes_big (S (S k)) n)
      with (N.land (N.shiftr n (8 * N.of_nat (S k))) 255 :: int_to_bytes_big (S k) n).
    rewrite IH.
    change (int_to_bytes_big (S k) (n / 256))
      with (N.land (N.shiftr (n / 256) (8 * N.of_nat k)) 255 :: int_to_bytes_big k (n / 256)).
    cbn [app]. f_equal. f_equal.
    replace (8 * N.of_nat (S k))%N with (8 + 8 * N.of_nat k)%N by lia.
    rewrite <- N.shiftr_shiftr. f_equal.
    now rewrite N.shiftr_div_pow2.
Qed.

Lemma concat_strings_app l1 l2 :
  concat_strings (l1 ++ l2) = concat_strings l1 +:+ concat_strings l2.
Proof.
  induction l1 as [|s l1 IH]; [reflexivity|]. cbn [concat_strings app].
  now rewrite IH, append_assoc.
Qed.

(** The digits of [n] are the digits of its bytes. *)
Lemma hex_fixed_bytes k n :
  hex_fixed (2 * k) n = concat_strings (map (hex_fixed 2) (int_to_bytes_big k n)).
Proof.
  revert n. induction k as [|k IH]; intros n; [reflexivity|].
  replace (2 * S k)%nat with (S (S (2 * k))) by lia.
  rewrite hex_fixed_byte, to_bytes_snoc, map_app, concat_strings_app, IH.
  cbn [map concat_strings]. now rewrite append_empty_r.
Qed.

Lemma hex_char_not_newline d : is_newline (hex_char d) = false.
Proof.
  destruct d as [|p]; [reflexivity|].
  do 4 (destruct p as [p|p|]; try reflexivity).
Qed.

Lemma findall_hex_groups bs :
  findall_dotdot (concat_strings (map (hex_fixed 2) bs)) = map (hex_fixed 2) bs.
Proof.
  induction bs as [|b bs IH]; [reflexivity|].
  cbn [map concat_strings]. rewrite hex_fixed_2 at 1.
  rewrite !UriFacts.append_cons, UriFacts.append_nil.
  cbn [findall_dotdot]. rewrite !hex_char_not_newline.
  cbn [negb andb]. now rewrite IH, hex_fixed_2.
Qed.

Lemma hex_ndigits_48 n : (n < 2 ^ 48)%N -> (hex_ndigits n <= 12)%nat.
Proof.
  intros H. destruct n as [|p]; [simpl; lia|].
  unfold hex_ndigits.
  assert (N.log2 (N.pos p) < 48)%N by (apply N.log2_lt_pow2; lia).
  assert (N.log2 (N.pos p) / 4 < 12)%N by (apply N.Div0.div_lt_upper_bound; lia).
  lia.
Qed.

Lemma mac_of_bytes node :
  (node < 2 ^ 48)%N ->
  get_mac_address node = join ":" (map (hex_fixed 2) (int_to_bytes_big 6 node)).
Proof.
  intros H. unfold get_mac_address, format_012x.
  rewrite Nat.max_l by now apply hex_ndigits_48.
  change 12%nat with (2 * 6)%nat.
  now rewrite hex_fixed_bytes, findall_hex_groups.
Qed.
End MacFacts.

Module MacFacts2.
Import PyStr PyStrFacts MacFacts.

Lemma split_join sep parts :
  parts <> [] ->
  Forall (fun p => contains sep p = false) parts ->
  split sep (join (String sep "") parts) = parts.
Proof.
  intros Hne Hall. induction Hall as [|p ps Hp Hps IH]; [congruence|].
  destruct ps as [|q ps].
  - simpl. now apply split_no_sep.
  - change (join (String sep "") (p :: q :: ps))
      with (p +:+ String sep "" +:+ join (String sep "") (q :: ps)).
    rewrite UriFacts.append_cons, UriFacts.append_nil, split_app_sep.
    rewrite (split_no_sep _ _ Hp), IH by discriminate. reflexivity.
Qed.

Lemma hex_char_not_colon d : Ascii.eqb (hex_char d) ":" = false.
Proof.
  destruct d as [|p]; [reflexivity|].
  do 4 (destruct p as [p|p|]; try reflexivity).
Qed.

Lemma hex_group_no_colon b : contains ":" (hex_fixed 2 b) = false.
Proof. rewrite hex_fixed_2. cbn [contains]. now rewrite !hex_char_not_colon. Qed.

Lemma hex_char_inj a b :
  (a < 16)%N -> (b < 16)%N -> hex_char a = hex_char b -> a = b.
Proof.
  intros Ha Hb.
  destruct a as [|p]; destruct b as [|q];
    repeat match goal with
           | x : positive |- _ => destruct x; try lia
           end;
    cbn; intros H; try reflexivity; discriminate H.
Qed.

Lemma hex_fixed_2_inj a b :
  (a < 256)%N -> (b < 256)%N -> hex_fixed 2 a = hex_fixed 2 b -> a = b.
Proof.
  intros Ha Hb. rewrite !hex_fixed_2. intros [= H1 H0].
  apply hex_char_inj in H1; [|apply N.mod_lt; lia..].
  apply hex_char_inj in H0; [|apply N.mod_lt; lia..].
  rewrite (N.div_mod a 16), (N.div_mod b 16) by lia.
  rewrite N.mod_small in H1 by (apply N.Div0.div_lt_upper_bound; lia).
  rewrite N.mod_small in H1 by (apply N.Div0.div_lt_upper_bound; lia).
  congruence.
Qed.

Lemma to_bytes_bounded k n : Forall (fun b => (b < 256)%N) (int_to_bytes_big k n).
Proof.
  induction k as [|k IH]; [constructor|].
  cbn [int_to_bytes_big]. constructor; [|exact IH].
  change 255%N with (N.ones 8). rewrite N.land_ones. apply N.mod_lt. discriminate.
Qed.

Lemma from_bytes_snoc l b :
  int_from_bytes_big (l ++ [b]) = (int_from_bytes_big l * 256 + b)%N.
Proof. unfold int_from_bytes_big. now rewrite fold_left_app. Qed.

Lemma from_to_bytes k n :
  int_from_bytes_big (int_to_bytes_big k n) = (n mod 256 ^ N.of_nat k)%N.
Proof.
  revert n. induction k as [|k IH]; intros n.
  - change (256 ^ N.of_nat 0)%N with 1%N. rewrite N.mod_1_r. reflexivity.
  - rewrite to_bytes_snoc, from_bytes_snoc, IH.
    replace (256 ^ N.of_nat (S k))%N with (256 * 256 ^ N.of_nat k)%N
      by (rewrite Nat2N.inj_succ, N.pow_succ_r'; reflexivity).
    rewrite N.Div0.mod_mul_r. lia.
Qed.

Lemma map_hex_inj l1 l2 :
  Forall (fun b => (b < 256)%N) l1 -> Forall (fun b => (b < 256)%N) l2 ->
  map (hex_fixed 2) l1 = map (hex_fixed 2) l2 -> l1 = l2.
Proof.
  intros H1. revert l2. induction H1 as [|a l1 Ha _ IH]; intros l2 H2 E.
  - destruct l2; [reflexivity|discriminate].
  - destruct H2 as [|b l2 Hb H2]; [discriminate|].
    pose proof (f_equal (List.hd "") E) as E1.
    pose proof (f_equal (@List.tl string) E) as E2.
    cbn [map List.hd List.tl] in E1, E2.
    f_equal; [now apply hex_fixed_2_inj|now apply IH].
Qed.

Lemma mac_inj n1 n2 :
  (n1 < 2 ^ 48)%N -> (n2 < 2 ^ 48)%N ->
  get_mac_address n1 = get_mac_address n2 -> n1 = n2.
Proof.
  intros H1 H2 E. rewrite !mac_of_bytes in E by assumption.
  apply (f_equal (split ":")) in E.
  rewrite !split_join in E;
    try (apply Forall_map, Forall_forall; intros; apply hex_group_no_colon);
    try discriminate.
  apply map_hex_inj in E; try apply to_bytes_bounded.
  apply (f_equal int_from_bytes_big) in E.
  rewrite !from_to_bytes in E.
  change (256 ^ N.of_nat 6)%N with (2 ^ 48)%N in E.
  now rewrite !N.mod_small in E by assumption.
Qed.
End MacFacts2.

(** ** Facts about runs of the client *)

Lemma node_creations_app tr1 tr2 :
  node_creations (tr1 ++ tr2) = (node_creations tr1 ++ node_creations tr2)%list.
Proof. apply List.filter_app. Qed.

Section RunFacts.
Variable sr : list event -> sink_call -> bool.

(** *** Where pushes and registry entries come from *)

Lemma quiet_sourced M st st' evs :
  universe_channels st' = universe_channels st ->
  trace st' = (trace st ++ evs)%list -> pushes evs = [] ->
  sourced M st -> sourced M st'.
Proof.
  intros Hr Ht Hp [P R]. split.
  - intros ch values. rewrite Ht, pushes_app, Hp, app_nil_r. apply P.
  - intros u ch. rewrite Hr. apply R.
Qed.

Lemma effect_sourced M msg st r st' :
  msg ∈ M -> registry_consistent st -> effect sr msg st r st' ->
  sourced M st -> sourced M st'.
Proof.
  intros Hin [C S _]
         [evs _ Hr Hn Ht Hsch Hp
         |u frame ch evs Hdec Hreg Hr Hn Ht Hsch Hp _
         |u frame evs Hdec Hreg Hr Hn Ht Hsch Hp _] [P R].
  - eapply quiet_sourced; eauto. now split.
  - split.
    + intros ch' values. rewrite Ht, pushes_app, Hp.
      rewrite elem_of_app, list_elem_of_singleton.
      intros [Hold|[= -> ->]]; [exact (P _ _ Hold)|].
      destruct (S u ch Hreg) as [-> _]. eauto.
    + intros u' ch'. rewrite Hr. apply R.
  - split.
    + intros ch' values. rewrite Ht, pushes_app, Hp.
      rewrite elem_of_app, list_elem_of_singleton.
      intros [Hold|[= -> ->]]; [exact (P _ _ Hold)|]. simpl. eauto.
    + intros u' ch'. rewrite Hr.
      destruct (decide (u = u')) as [<-|Hne].
      * intros _. eauto.
      * rewrite lookup_insert_ne by exact Hne. apply R.
Qed.

Lemma consume_sourced M msgs st :
  (forall msg, msg ∈ msgs -> msg ∈ M) ->
  registry_consistent st -> sourced M st ->
  sourced M (consume sr msgs st).2.
Proof.
  revert st. induction msgs as [|msg rest IH]; intros st Hsub Hc Hs; [exact Hs|].
  rewrite consume_cons.
  pose proof (handle_message_effect sr msg st) as Heff.
  pose proof (effect_evolves sr _ _ _ _ Heff) as Hev.
  assert (Hs1 : sourced M (handle_message sr msg st).2).
  { eapply effect_sourced; eauto. apply Hsub. left. }
  destruct (handle_message sr msg st) as [[[]|e] st1]; simpl in *; [|exact Hs1].
  apply IH; [|now apply Hev|exact Hs1].
  intros m Hm. apply Hsub. now right.
Qed.

Lemma emit_sourced M e st :
  (forall c, e <> EvSink c) -> sourced M st -> sourced M (emit e st).2.
Proof.
  intros He. eapply quiet_sourced with (evs := [e]); try reflexivity.
  destruct e as [c| | |]; try reflexivity. now destruct (He c).
Qed.

Lemma session_sourced M uri c st :
  (forall msg, msg ∈ script_messages [c] -> msg ∈ M) ->
  registry_consistent st -> sourced M st ->
  sourced M (session sr uri c st).2.
Proof.
  intros Hsub Hc Hs. destruct c as [e|msgs fin].
  - unfold session, mbind, raise. simpl.
    apply (emit_sourced M (EvConnect uri) st); [discriminate|exact Hs].
  - rewrite session_state. apply consume_sourced.
    + intros m Hm. apply Hsub. simpl. now rewrite app_nil_r.
    + eapply ev_consistent; [apply emit_evolves; discriminate|].
      eapply ev_consistent; [apply emit_evolves; discriminate|exact Hc].
    + apply emit_sourced; [discriminate|]. apply emit_sourced; [discriminate|exact Hs].
Qed.

Lemma attempt_sourced M uri c st :
  (forall msg, msg ∈ script_messages [c] -> msg ∈ M) ->
  registry_consistent st -> sourced M st ->
  sourced M (attempt sr uri c st).2.
Proof.
  intros Hsub Hc Hs.
  pose proof (attempt_spec sr uri c st) as H.
  pose proof (session_sourced M uri c st Hsub Hc Hs) as Hss.
  destruct (session sr uri c st) as [[[]|e] st1]; rewrite H; simpl in *; [exact Hss|].
  destruct (on_error_spec e st1) as (_ & Hr & Hn & l & Ht).
  eapply quiet_sourced; eauto.
Qed.

Lemma reconnect_loop_sourced M uri script st :
  (forall msg, msg ∈ script_messages script -> msg ∈ M) ->
  registry_consistent st -> sourced M st ->
  sourced M (reconnect_loop sr uri script st).2.
Proof.
  revert st. induction script as [|c rest IH]; intros st Hsub Hc Hs; [exact Hs|].
  rewrite reconnect_loop_cons. apply IH.
  - intros m Hm. apply Hsub. simpl. apply elem_of_app. now right.
  - eapply ev_consistent; [apply attempt_evolves|exact Hc].
  - apply attempt_sourced; [|exact Hc|exact Hs].
    intros m Hm. apply Hsub. simpl in *. rewrite app_nil_r in Hm.
    apply elem_of_app. now left.
Qed.
End RunFacts.

Section RunFacts2.
Variable sr : list event -> sink_call -> bool.

Lemma run_dmx_client_unfold config my_ip script t :
  target_ip config my_ip = Ret t ->
  run_dmx_client sr config my_ip script initial_engine =
    if sr (startup_log config my_ip t) (CreateNode t 6454 30 1)
    then (Raise LibraryError, created_engine config my_ip t)
    else
      match uri config with
      | Raise e => (Raise e, created_engine config my_ip t)
      | Ret u =>
          match getitem config "node_name" with
          | Raise e => (Raise e, created_engine config my_ip t)
          | Ret name =>
              reconnect_loop sr u script
                (emit (EvLog (LogConnecting name)) (created_engine config my_ip t)).2
          end
      end.
Proof.
  intros Ht. unfold run_dmx_client, created_engine, startup_log. rewrite Ht.
  unfold mbind at 1 2 3 4. unfold lift at 1.
  destruct (py_eq_str _ _); cbn [log emit ret trace initial_engine
                                  universe_channels node_channels app];
    unfold call_sink; cbn [trace universe_channels node_channels app];
    (destruct (sr _ (CreateNode _ _ _ _)); [reflexivity|]);
    unfold mbind, lift, log;
    (destruct (uri config) as [u|]; [|reflexivity]);
    (destruct (getitem config "node_name") as [name|]; reflexivity).
Qed.

Lemma created_engine_facts config my_ip t :
  registry_consistent (created_engine config my_ip t) /\
  (forall M, sourced M (created_engine config my_ip t)) /\
  schedule (trace (created_engine config my_ip t)) = [] /\
  node_creations (trace (created_engine config my_ip t)) =
    [EvSink (CreateNode t 6454 30 1)].
Proof.
  unfold created_engine, startup_log.
  assert (Hp : pushes (trace (created_engine config my_ip t)) = []).
  { unfold created_engine, startup_log. destruct (py_eq_str _ _); reflexivity. }
  unfold created_engine, startup_log in Hp.
  split; [|split; [|split]].
  - split.
    + intros u. reflexivity.
    + intros u ch H. simpl in H. rewrite lookup_empty in H. discriminate.
    + intros ch values H. rewrite Hp in H. inversion H.
  - intros M. split.
    + intros ch values H. rewrite Hp in H. inversion H.
    + intros u ch H. simpl in H. rewrite lookup_empty in H. discriminate.
  - destruct (py_eq_str _ _); reflexivity.
  - destruct (py_eq_str _ _); reflexivity.
Qed.

(** *** The node is created once *)

Lemma handle_message_node_creations msg st :
  node_creations (trace (handle_message sr msg st).2) = node_creations (trace st).
Proof.
  destruct msg as [data|text]; unfold handle_message.
  - destruct (2 <? List.length data)%nat; [|reflexivity].
    unfold mbind, log, emit, ensure_registered, registry_get, set_values,
      add_universe, add_channel, registry_set, call_sink, mbind, log, emit.
    engine_simpl.
    destruct (universe_channels st !! u_id_of data) as [ch|] eqn:Hreg.
    + engine_simpl. rewrite Hreg.
      destruct (sr _ (SetValues _ _)); engine_simpl;
        rewrite !node_creations_app; simpl; now rewrite !app_nil_r.
    + engine_simpl.
      destruct (sr _ (AddUniverse _)); engine_simpl;
        [rewrite !node_creations_app; simpl; now rewrite !app_nil_r|].
      destruct (sr _ (AddChannel _ _ _ _)); engine_simpl;
        [rewrite !node_creations_app; simpl; now rewrite !app_nil_r|].
      rewrite lookup_insert_eq.
      destruct (sr _ (SetValues _ _)); engine_simpl;
        rewrite !node_creations_app; simpl; now rewrite !app_nil_r.
  - unfold log, emit. engine_simpl. rewrite node_creations_app. simpl.
    now rewrite app_nil_r.
Qed.

Lemma consume_node_creations msgs st :
  node_creations (trace (consume sr msgs st).2) = node_creations (trace st).
Proof.
  revert st. induction msgs as [|msg rest IH]; intros st; [reflexivity|].
  rewrite consume_cons. pose proof (handle_message_node_creations msg st) as H.
  destruct (handle_message sr msg st) as [[[]|e] st1]; simpl in *.
  - now rewrite IH.
  - exact H.
Qed.

Lemma attempt_node_creations uri c st :
  node_creations (trace (attempt sr uri c st).2) = node_creations (trace st).
Proof.
  pose proof (attempt_spec sr uri c st) as H.
  assert (Hs : node_creations (trace (session sr uri c st).2) = node_creations (trace st)).
  { destruct c as [e|msgs fin].
    - unfold session, mbind, raise, emit. simpl. rewrite node_creations_app. simpl.
      now rewrite app_nil_r.
    - rewrite session_state, consume_node_creations. unfold emit. simpl.
      rewrite !node_creations_app. simpl. now rewrite !app_nil_r. }
  destruct (session sr uri c st) as [[[]|e] st1]; rewrite H; simpl in *; [exact Hs|].
  destruct (on_error_spec e st1) as (_ & _ & _ & l & Ht).
  rewrite Ht, node_creations_app, Hs. simpl. now rewrite app_nil_r.
Qed.

Lemma reconnect_loop_node_creations uri script st :
  node_creations (trace (reconnect_loop sr uri script st).2) = node_creations (trace st).
Proof.
  revert st. induction script as [|c rest IH]; intros st; [reflexivity|].
  now rewrite reconnect_loop_cons, IH, attempt_node_creations.
Qed.

(** A connection that fails makes its session raise. *)
Lemma failing_session_raises uri c st :
  connection_fails c = true -> raised (session sr uri c st).1 = true.
Proof.
  destruct c as [e|msgs [|e]]; try discriminate; intros _.
  - reflexivity.
  - unfold session, mbind, log, emit, raise.
    destruct (consume sr msgs _) as [[[]|e'] st3]; reflexivity.
Qed.

Lemma reconnect_loop_passes uri script st :
  exists failed : list bool,
    List.length failed = List.length script /\
    schedule (trace (reconnect_loop sr uri script st).2) =
      (schedule (trace st) ++ flat_map (pass uri) failed)%list /\
    (forall i c, script !! i = Some c -> connection_fails c = true ->
                 failed !! i = Some true).
Proof.
  revert st. induction script as [|c rest IH]; intros st.
  - exists []. simpl. rewrite app_nil_r. repeat split. intros i c H. discriminate H.
  - rewrite reconnect_loop_cons.
    destruct (IH (attempt sr uri c st).2) as (failed & Hlen & Hs & Hf).
    exists (raised (session sr uri c st).1 :: failed). split; [simpl; lia|]. split.
    + rewrite Hs, attempt_schedule, <- app_assoc. reflexivity.
    + intros [|i] c' Hc' Hfail; simpl in *.
      * injection Hc' as <-. now rewrite failing_session_raises.
      * eauto.
Qed.
End RunFacts2.

(** ** The properties *)

Module RstripFacts.

Lemma rstrip_no_trailing c s : endswith_char c (rstrip c s) = false.
Proof.
  induction s as [|a s IH]; [reflexivity|].
  cbn [rstrip]. destruct (rstrip c s) as [|b r] eqn:E.
  - destruct (Ascii.eqb a c) eqn:Ha; [reflexivity|]. simpl. exact Ha.
  - exact IH.
Qed.

Lemma rstrip_suffix c s : exists k, s = rstrip c s +:+ repeat_char c k.
Proof.
  induction s as [|a s [k IH]]; [exists 0%nat; reflexivity|].
  cbn [rstrip]. destruct (rstrip c s) as [|b r] eqn:E.
  - rewrite UriFacts.append_nil in IH.
    destruct (Ascii.eqb a c) eqn:Ha.
    + apply Ascii.eqb_eq in Ha. subst a. exists (S k). rewrite IH. reflexivity.
    + exists k. rewrite UriFacts.append_cons, UriFacts.append_nil. now rewrite <- IH.
  - exists k. rewrite UriFacts.append_cons. now rewrite <- IH.
Qed.

End RstripFacts.

(** X1.  For a 48-bit device id, [get_mac_address] is the six bytes of the
    id, most significant first, each written as two lowercase hexadecimal
    digits, joined by colons: a text of 17 characters. *)
Theorem mac_address_is_hex_of_bytes (node : N) :
  (node < 2 ^ 48)%N ->
  get_mac_address node =
    PyStr.join ":" (map (hex_fixed 2) (int_to_bytes_big 6 node)) /\
  String.length (get_mac_address node) = 17%nat.
Proof.
  intros H. rewrite (MacFacts.mac_of_bytes node H). split; [reflexivity|].
  cbn [int_to_bytes_big map]. rewrite !MacFacts.hex_fixed_2.
  unfold PyStr.join. rewrite !UriFacts.append_cons, !UriFacts.append_nil.
  rewrite ?UriFacts.append_cons, ?UriFacts.append_nil. reflexivity.
Qed.

Lemma mac_address_is_hex_of_bytes_witness :
  get_mac_address 73596058572 = "00:11:22:aa:bb:cc".
Proof.
  destruct (mac_address_is_hex_of_bytes 73596058572 ltac:(reflexivity)) as [E _].
  rewrite E. vm_compute. reflexivity.
Defined.

(** X2.  Two different 48-bit device ids never get the same MAC address
    text. *)
Theorem mac_address_injective (n1 n2 : N) :
  (n1 < 2 ^ 48)%N -> (n2 < 2 ^ 48)%N -> n1 <> n2 ->
  get_mac_address n1 <> get_mac_address n2.
Proof. intros H1 H2 Hne E. apply Hne. now apply MacFacts2.mac_inj. Qed.

Lemma mac_address_injective_witness :
  get_mac_address 1 <> get_mac_address 256.
Proof.
  apply (mac_address_injective 1 256); [reflexivity|reflexivity|discriminate].
Defined.

Lemma get_local_ip_fallback net :
  socket_create net = Ret tt ->
  raised (socket_connect net) || raised (socket_getsockname net) = true ->
  (get_local_ip net).1 = Ret "127.0.0.1".
Proof.
  intros Hc. unfold get_local_ip. rewrite Hc.
  destruct (socket_connect net) as [[]|e1]; [|reflexivity].
  destruct (socket_getsockname net) as [a|e2]; [discriminate|reflexivity].
Qed.

(** X3.  Once its socket exists, [get_local_ip] returns an address whatever
    happens: [127.0.0.1] when [connect] or [getsockname] raises, the address
    that [getsockname] reports otherwise; and in each of these cases the
    socket is closed exactly once, as the last operation. *)
Theorem get_local_ip_closes_and_falls_back (net : network) :
  socket_create net = Ret tt ->
  (exists ip,
     (get_local_ip net).1 = Ret ip /\
     (raised (socket_connect net) || raised (socket_getsockname net) = true ->
      ip = "127.0.0.1") /\
     (forall a, socket_connect net = Ret tt -> socket_getsockname net = Ret a -> ip = a)) /\
  (exists calls,
     (get_local_ip net).2 = (calls ++ [SockClose])%list /\
     List.filter is_close calls = []).
Proof.
  intros Hc. unfold get_local_ip. rewrite Hc.
  destruct (socket_connect net) as [[]|e1].
  - destruct (socket_getsockname net) as [a|e2]; simpl.
    + split.
      * exists a. split; [reflexivity|]. split; [discriminate|]. now intros a' _ [= ->].
      * now exists [SockCreate; SockConnect "10.255.255.255" 1; SockGetsockname].
    + split.
      * exists "127.0.0.1". split; [reflexivity|]. split; [reflexivity|]. discriminate.
      * now exists [SockCreate; SockConnect "10.255.255.255" 1; SockGetsockname].
  - simpl. split.
    + exists "127.0.0.1". split; [reflexivity|]. split; [reflexivity|]. discriminate.
    + now exists [SockCreate; SockConnect "10.255.255.255" 1].
Qed.

Lemma get_local_ip_closes_and_falls_back_witness :
  (get_local_ip offline_network).1 = Ret "127.0.0.1".
Proof.
  destruct (get_local_ip_closes_and_falls_back offline_network eq_refl)
    as [(ip & Hip & Hfall & _) _].
  rewrite Hip, (Hfall eq_refl). reflexivity.
Defined.

(** X4.  When the local address cannot be found and the configured target
    is [255.255.255.255] or absent, the ArtNet target becomes
    [127.0.0.255]: the fix-up is applied to the loopback fallback. *)
Theorem offline_startup_targets_loopback_subnet
    (config : gmap string pyval) (net : network) :
  socket_create net = Ret tt ->
  raised (socket_connect net) || raised (socket_getsockname net) = true ->
  config !! "artnet_ip" = None \/
  config !! "artnet_ip" = Some (PyStr "255.255.255.255") ->
  startup_target config net = Ret (PyStr "127.0.0.255").
Proof.
  intros Hc Hfail Hcfg.
  unfold startup_target. rewrite (get_local_ip_fallback net Hc Hfail). cbn [bind].
  unfold target_ip, get_default. destruct Hcfg as [-> | ->]; vm_compute; reflexivity.
Qed.

Lemma offline_startup_targets_loopback_subnet_witness :
  startup_target https_config offline_network = Ret (PyStr "127.0.0.255").
Proof.
  apply offline_startup_targets_loopback_subnet;
    [reflexivity|reflexivity|left; reflexivity].
Defined.

Section EnrollmentFacts.
Variable upper : string -> string.

(** The configuration that a successful registration writes. *)
Lemma written_config node data reply write cfg :
  rr_written (handle_register upper node data reply write) = Some cfg ->
  exists host otp fields text,
    data !! "host" = Some host /\ data !! "otp" = Some otp /\
    reply = Responded 200 (Ret (JsonObject fields)) text /\
    write = Ret tt /\
    py_truthy (get_default fields "device_secret" PyNone) = true /\
    cfg = <["server_url" := PyStr (rstrip "/" host)]>
            (<["node_name" := form_get data "name"]>
               (<["device_secret" := get_default fields "device_secret" PyNone]>
                  (<["artnet_ip" := form_get data "artnet_ip"]>
                     (<["mac_address" := PyStr (get_mac_address node)]> ∅)))).
Proof.
  unfold handle_register.
  destruct (data !! "host") as [host|]; [|discriminate].
  destruct (data !! "otp") as [otp|]; [|discriminate].
  destruct reply as [e|status [[fields|]|e] text]; try discriminate.
  - destruct (Z.eqb_spec status 200) as [->|];
      [|destruct text; discriminate].
    destruct (py_truthy (get_default fields "device_secret" PyNone)) eqn:Ht;
      [|discriminate].
    cbn [negb]. destruct write as [[]|e]; [|discriminate].
    cbn [rr_written]. intros [= <-].
    exists host, otp, fields, text. auto 10.
  - destruct (status =? 200)%Z; [discriminate|destruct text; discriminate].
  - destruct (status =? 200)%Z; [discriminate|destruct text; discriminate].
Qed.

Lemma success_page node data reply write :
  rr_response (handle_register upper node data reply write) = Ret PageSuccess <->
  is_Some (rr_written (handle_register upper node data reply write)).
Proof.
  unfold handle_register.
  destruct (data !! "host") as [host|];
    [|split; [discriminate|intros [? H]; discriminate H]].
  destruct (data !! "otp") as [otp|];
    [|split; [discriminate|intros [? H]; discriminate H]].
  destruct reply as [e|status [[fields|]|e] text]; cbn [rr_response rr_written];
    try (split; [discriminate|intros [? H]; discriminate H]);
    (destruct (status =? 200)%Z;
     [|destruct text; cbn [rr_response rr_written];
       (split; [discriminate|intros [? H]; discriminate H])]);
    try (cbn [rr_response rr_written];
         split; [discriminate|intros [? H]; discriminate H]).
  destruct (py_truthy _); cbn [negb rr_response rr_written].
  - destruct write as [[]|e]; cbn [rr_response rr_written].
    + split; eauto.
    + split; [discriminate|intros [? H]; discriminate H].
  - split; [discriminate|intros [? H]; discriminate H].
Qed.

End EnrollmentFacts.

Section RunFacts3.
Variable sr : list event -> sink_call -> bool.

Lemma consume_app msgs1 msgs2 st :
  consume sr (msgs1 ++ msgs2) st =
    match consume sr msgs1 st with
    | (Ret _, st1) => consume sr msgs2 st1
    | (Raise e, st1) => (Raise e, st1)
    end.
Proof.
  revert st. induction msgs1 as [|m msgs1 IH]; intros st; [reflexivity|].
  cbn [app]. rewrite !consume_cons.
  destruct (handle_message sr m st) as [[[]|e] st1]; [apply IH|reflexivity].
Qed.

(** The final state of a run: the engine after the creation of the node,
    or what the reconnect loop makes of it. *)
Lemma run_dmx_client_final config my_ip script :
  exists t st0,
    target_ip config my_ip = Ret t /\
    (st0 = created_engine config my_ip t \/
     exists name, st0 = (emit (EvLog (LogConnecting name)) (created_engine config my_ip t)).2) /\
    ((run_dmx_client sr config my_ip script initial_engine).2 = st0 \/
     exists u, (run_dmx_client sr config my_ip script initial_engine).2 =
               (reconnect_loop sr u script st0).2).
Proof.
  destruct (target_ip_returns config my_ip) as [t Ht].
  exists t. rewrite (run_dmx_client_unfold sr config my_ip script t Ht).
  destruct (sr _ _); [exists (created_engine config my_ip t); auto|].
  destruct (uri config) as [u|]; [|exists (created_engine config my_ip t); auto].
  destruct (getitem config "node_name") as [name|];
    [|exists (created_engine config my_ip t); auto].
  eexists. split; [exact Ht|]. split; [right; eauto|]. right. eauto.
Qed.

Lemma connecting_engine_facts config my_ip t name :
  let st := (emit (EvLog (LogConnecting name)) (created_engine config my_ip t)).2 in
  registry_consistent st /\ (forall M, sourced M st) /\
  schedule (trace st) = [] /\
  node_creations (trace st) = [EvSink (CreateNode t 6454 30 1)].
Proof.
  intros st. destruct (created_engine_facts config my_ip t) as (Hc & Hs & Hsch & Hn).
  subst st. split; [|split; [|split]].
  - eapply ev_consistent; [apply emit_evolves; discriminate|exact Hc].
  - intros M. apply emit_sourced; [discriminate|apply Hs].
  - cbn [emit trace snd]. rewrite schedule_app, Hsch. reflexivity.
  - cbn [emit trace snd]. rewrite node_creations_app, Hn. reflexivity.
Qed.

Lemma run_dmx_client_sourced config my_ip script :
  sourced (script_messages script)
    (run_dmx_client sr config my_ip script initial_engine).2.
Proof.
  destruct (run_dmx_client_final config my_ip script)
    as (t & st0 & Ht & Hst0 & Hfin).
  assert (H0 : registry_consistent st0 /\ sourced (script_messages script) st0).
  { destruct Hst0 as [->|[name ->]].
    - destruct (created_engine_facts config my_ip t) as (Hc & Hs & _). auto.
    - destruct (connecting_engine_facts config my_ip t name) as (Hc & Hs & _). auto. }
  destruct H0 as [Hc Hs].
  destruct Hfin as [->|[u ->]]; [exact Hs|].
  apply reconnect_loop_sourced; auto.
Qed.
End RunFacts3.

(** X5.  [handle_register] writes a configuration exactly when it answers
    with the success page, and that is exactly when the form holds [host]
    and [otp], the server answered with status 200 and a JSON object whose
    [device_secret] is truthy, and writing the configuration file did not
    raise; when the write raises, the answer is the error page and no
    configuration is stored. *)
Theorem registration_writes_config_only_on_success
    (upper : string -> string) (node : N) (data : gmap string string)
    (reply : http_exchange) (write : outcome unit) :
  let r := handle_register upper node data reply write in
  (is_Some (rr_written r) <-> rr_response r = Ret PageSuccess) /\
  (is_Some (rr_written r) <->
   is_Some (data !! "host") /\ is_Some (data !! "otp") /\
   (exists fields text,
      reply = Responded 200 (Ret (JsonObject fields)) text /\
      py_truthy (get_default fields "device_secret" PyNone) = true) /\
   write = Ret tt) /\
  (forall e, write = Raise e ->
     rr_written r = None /\
     (is_Some (rr_written (handle_register upper node data reply (Ret tt))) ->
      rr_response r = Ret (PageError e))).
Proof.
  intros r. subst r. split; [symmetry; apply success_page|]. split; [split|].
  - intros [cfg Hcfg].
    destruct (written_config upper _ _ _ _ _ Hcfg)
      as (host & otp & fields & text & Hh & Ho & Hr & Hw & Ht & _).
    rewrite Hh, Ho. eauto 10.
  - intros ([host Hh] & [otp Ho] & (fields & text & -> & Ht) & ->).
    unfold handle_register. rewrite Hh, Ho. cbn [Z.eqb Pos.eqb]. rewrite Ht.
    cbn [negb rr_written]. eauto.
  - intros e ->. split.
    + destruct (rr_written (handle_register upper node data reply (Raise e)))
        as [cfg|] eqn:Hcfg; [|reflexivity].
      destruct (written_config upper _ _ _ _ _ Hcfg)
        as (_ & _ & _ & _ & _ & _ & _ & Hw & _). discriminate Hw.
    + intros [cfg Hcfg].
      destruct (written_config upper _ _ _ _ _ Hcfg)
        as (host & otp & fields & text & Hh & Ho & -> & _ & Ht & _).
      unfold handle_register. rewrite Hh, Ho. cbn [Z.eqb Pos.eqb]. rewrite Ht.
      reflexivity.
Qed.

Lemma registration_writes_config_only_on_success_witness :
  is_Some (rr_written (handle_register upper_ascii 5 enrollment_form enrollment_ok
                         (Ret tt))) /\
  rr_written (handle_register upper_ascii 5 enrollment_form enrollment_ok
                (Raise LibraryError)) = None /\
  rr_response (handle_register upper_ascii 5 enrollment_form enrollment_ok
                 (Raise LibraryError)) = Ret (PageError LibraryError).
Proof.
  assert (Hok : is_Some (rr_written (handle_register upper_ascii 5 enrollment_form
                                       enrollment_ok (Ret tt)))).
  { apply (registration_writes_config_only_on_success upper_ascii 5 enrollment_form
             enrollment_ok (Ret tt)).
    split; [vm_compute; eauto|]. split; [vm_compute; eauto|].
    split; [|reflexivity]. eexists _, _. split; reflexivity. }
  split; [exact Hok|].
  destruct (registration_writes_config_only_on_success upper_ascii 5 enrollment_form
              enrollment_ok (Raise LibraryError)) as (_ & _ & Hfail).
  destruct (Hfail LibraryError eq_refl) as [Hnone Hpage].
  split; [exact Hnone|exact (Hpage Hok)].
Defined.

(** X6.  With [host] and [otp] in the form, [handle_register] sends its
    request and answers with a page whatever the exchange with the server
    does; it raises only when [host] or [otp] is missing, with
    [AttributeError], before any request is sent and without writing
    anything. *)
Theorem registration_failures_do_not_propagate
    (upper : string -> string) (node : N) (data : gmap string string)
    (reply : http_exchange) (write : outcome unit) :
  let r := handle_register upper node data reply write in
  (is_Some (data !! "host") -> is_Some (data !! "otp") ->
   exists p, rr_response r = Ret p /\ is_Some (rr_request r)) /\
  (forall e, rr_response r = Raise e ->
     e = AttributeError /\ (data !! "host" = None \/ data !! "otp" = None) /\
     rr_request r = None /\ rr_written r = None).
Proof.
  intros r. subst r. unfold handle_register. split.
  - intros [host ->] [otp ->].
    destruct reply as [e|status [[fields|]|e] [text|e']]; cbn [rr_response rr_request];
      try destruct (status =? 200)%Z; try destruct (negb _);
      try destruct write as [[]|e''];
      cbn [rr_response rr_request]; eauto.
  - intros e.
    destruct (data !! "host") as [host|]; [|intros [= <-]; auto].
    destruct (data !! "otp") as [otp|]; [|intros [= <-]; auto].
    destruct reply as [e0|status [[fields|]|e0] [text|e']]; cbn [rr_response];
      try destruct (status =? 200)%Z; try destruct (negb _);
      try destruct write as [[]|e''];
      cbn [rr_response]; discriminate.
Qed.

Lemma registration_failures_do_not_propagate_witness :
  exists p,
    rr_response (handle_register upper_ascii 5 enrollment_form (PostFails LibraryError)
                   (Ret tt)) =
      Ret p.
Proof.
  destruct (registration_failures_do_not_propagate upper_ascii 5 enrollment_form
              (PostFails LibraryError) (Ret tt)) as [H _].
  destruct (H ltac:(vm_compute; eauto) ltac:(vm_compute; eauto)) as (p & Hp & _).
  exists p. exact Hp.
Defined.

(** X7.  The registration request goes to the submitted host without its
    trailing slashes, followed by [/api/dmx/otp-authenticate]; its payload
    has exactly the keys [otp] (the code in upper case), [mac_adress] (the
    device's MAC address) and [name]. *)
Theorem registration_request
    (upper : string -> string) (node : N) (data : gmap string string)
    (reply : http_exchange) (write : outcome unit) (host otp : string) :
  data !! "host" = Some host -> data !! "otp" = Some otp ->
  exists base k payload,
    rr_request (handle_register upper node data reply write) =
      Some (base +:+ "/api/dmx/otp-authenticate", payload) /\
    host = base +:+ repeat_char "/" k /\
    endswith_char "/" base = false /\
    payload !! "otp" = Some (PyStr (upper otp)) /\
    payload !! "mac_adress" = Some (PyStr (get_mac_address node)) /\
    payload !! "name" = Some (form_get data "name") /\
    dom payload = {["otp"; "mac_adress"; "name"]}.
Proof.
  intros Hh Ho. destruct (RstripFacts.rstrip_suffix "/" host) as [k Hk].
  exists (rstrip "/" host), k.
  unfold handle_register. rewrite Hh, Ho.
  eexists. split.
  - destruct reply as [e|status [[fields|]|e] [text|e']]; cbn [rr_request];
      try destruct (status =? 200)%Z; try destruct (negb _);
      try destruct write as [[]|e''];
      cbn [rr_request]; reflexivity.
  - split; [exact Hk|]. split; [apply RstripFacts.rstrip_no_trailing|].
    split; [now rewrite lookup_insert_eq|].
    split; [rewrite lookup_insert_ne by discriminate; now rewrite lookup_insert_eq|].
    split; [rewrite !lookup_insert_ne by discriminate; now rewrite lookup_insert_eq|].
    rewrite !dom_insert_L, dom_empty_L. set_solver.
Qed.

Lemma registration_request_witness :
  exists payload,
    rr_request (handle_register upper_ascii 5 enrollment_form enrollment_ok (Ret tt)) =
      Some ("http://192.168.178.50:8000/api/dmx/otp-authenticate", payload) /\
    payload !! "otp" = Some (PyStr "XY1234").
Proof.
  destruct (registration_request upper_ascii 5 enrollment_form enrollment_ok (Ret tt)
              "http://192.168.178.50:8000/" "xy1234" eq_refl eq_refl)
    as (base & k & payload & Hreq & _ & _ & Hotp & _).
  exists payload. split; [|exact Hotp].
  pose proof Hreq as Hreq'. vm_compute in Hreq'. injection Hreq' as Hurl _.
  rewrite Hreq. do 2 f_equal. symmetry. exact Hurl.
Defined.

(** X8.  A configuration written by [handle_register] is complete for
    [run_dmx_client]: the streaming URI is defined (the host without
    trailing slashes, [http://] replaced by [ws://], then [/dmx?token=] and
    the secret), and the client, once its node is created, never ends in an
    exception. *)
Theorem enrolled_config_is_complete
    (upper : string -> string) (node : N) (data : gmap string string)
    (reply : http_exchange) (write : outcome unit) (cfg : gmap string pyval) :
  rr_written (handle_register upper node data reply write) = Some cfg ->
  exists host secret,
    data !! "host" = Some host /\
    cfg !! "device_secret" = Some secret /\
    uri cfg = Ret (PyStr.replace "http://" "ws://" (rstrip "/" host)
                     +:+ "/dmx?token=" +:+ py_format secret) /\
    cfg !! "mac_address" = Some (PyStr (get_mac_address node)) /\
    forall sink_raises my_ip script,
      (forall tr t, sink_raises tr (CreateNode t 6454 30 1) = false) ->
      (run_dmx_client sink_raises cfg my_ip script initial_engine).1 = Ret tt.
Proof.
  intros Hw.
  destruct (written_config upper _ _ _ _ _ Hw)
    as (host & otp & fields & text & Hh & _ & _ & _ & _ & ->).
  exists host, (get_default fields "device_secret" PyNone).
  assert (Hsecret : forall (m : gmap string pyval) a b c,
            (<["server_url" := a]> (<["node_name" := b]> (<["device_secret" := c]> m)))
              !! "device_secret" = Some c).
  { intros. rewrite !lookup_insert_ne by discriminate. apply lookup_insert_eq. }
  assert (Huri : forall (m : gmap string pyval) s b c,
            uri (<["server_url" := PyStr s]> (<["node_name" := b]>
                   (<["device_secret" := c]> m))) =
              Ret (PyStr.replace "http://" "ws://" s +:+ "/dmx?token=" +:+ py_format c)).
  { intros. unfold uri, ws_base, getitem. rewrite lookup_insert_eq. cbn [bind].
    rewrite Hsecret. reflexivity. }
  split; [exact Hh|]. split; [apply Hsecret|]. split; [apply Huri|]. split.
  - rewrite !lookup_insert_ne by discriminate. apply lookup_insert_eq.
  - intros sink_raises my_ip script Hsink.
    match goal with |- (run_dmx_client _ ?c _ _ _).1 = _ => set (cfg := c) end.
    destruct (target_ip_returns cfg my_ip) as [t Ht].
    rewrite (run_dmx_client_unfold sink_raises cfg my_ip script t Ht), Hsink.
    subst cfg. rewrite Huri. unfold getitem.
    rewrite lookup_insert_ne by discriminate. rewrite lookup_insert_eq.
    apply reconnect_loop_returns.
Qed.

Lemma enrolled_config_is_complete_witness :
  exists cfg,
    rr_written (handle_register upper_ascii 5 enrollment_form enrollment_ok (Ret tt)) =
      Some cfg /\
    uri cfg = Ret "ws://192.168.178.50:8000/dmx?token=s3cr3t".
Proof.
  destruct (rr_written (handle_register upper_ascii 5 enrollment_form enrollment_ok
                          (Ret tt)))
    as [cfg|] eqn:Hw; [|vm_compute in Hw; discriminate].
  exists cfg. split; [reflexivity|].
  destruct (enrolled_config_is_complete upper_ascii 5 enrollment_form enrollment_ok
              (Ret tt) cfg Hw)
    as (host & secret & Hh & Hs & Huri & _).
  vm_compute in Hh. injection Hh as <-.
  vm_compute in Hw. injection Hw as <-.
  vm_compute in Hs. injection Hs as <-.
  rewrite Huri. vm_compute. reflexivity.
Defined.

(** X9.  A configuration written by [handle_register] always has the key
    [artnet_ip], so the default of [config.get] is never used for it: a
    form without that field gives the target [None], without fix-up, and a
    field other than [255.255.255.255] is the target as it is. *)
Theorem enrolled_config_never_uses_default_target
    (upper : string -> string) (node : N) (data : gmap string string)
    (reply : http_exchange) (write : outcome unit) (cfg : gmap string pyval) :
  rr_written (handle_register upper node data reply write) = Some cfg ->
  cfg !! "artnet_ip" = Some (form_get data "artnet_ip") /\
  (data !! "artnet_ip" = None -> forall my_ip, target_ip cfg my_ip = Ret PyNone) /\
  (forall a, data !! "artnet_ip" = Some a -> a <> "255.255.255.255" ->
             forall my_ip, target_ip cfg my_ip = Ret (PyStr a)).
Proof.
  intros Hw.
  destruct (written_config upper _ _ _ _ _ Hw)
    as (host & otp & fields & text & _ & _ & _ & _ & _ & ->).
  assert (Hget : forall (m : gmap string pyval) a b c d,
            (<["server_url" := a]> (<["node_name" := b]> (<["device_secret" := c]>
               (<["artnet_ip" := d]> m)))) !! "artnet_ip" = Some d).
  { intros. rewrite !lookup_insert_ne by discriminate. apply lookup_insert_eq. }
  split; [apply Hget|]. split.
  - intros Hnone my_ip. unfold target_ip, get_default. rewrite Hget.
    unfold form_get. rewrite Hnone. reflexivity.
  - intros a Ha Hne my_ip. unfold target_ip, get_default. rewrite Hget.
    unfold form_get. rewrite Ha. cbn [py_eq_str].
    destruct (String.eqb_spec a "255.255.255.255"); [contradiction|reflexivity].
Qed.

Lemma enrolled_config_never_uses_default_target_witness :
  exists cfg,
    rr_written (handle_register upper_ascii 5 enrollment_form enrollment_ok (Ret tt)) =
      Some cfg /\
    target_ip cfg "192.168.1.20" = Ret PyNone.
Proof.
  destruct (rr_written (handle_register upper_ascii 5 enrollment_form enrollment_ok
                          (Ret tt)))
    as [cfg|] eqn:Hw; [|vm_compute in Hw; discriminate].
  exists cfg. split; [reflexivity|].
  destruct (enrolled_config_never_uses_default_target upper_ascii 5 enrollment_form
              enrollment_ok (Ret tt) cfg Hw) as (_ & Hnone & _).
  apply Hnone. reflexivity.
Defined.

(** X10.  From any state the reconnect loop attempts every connection it
    is offered and never ends in an exception: each pass opens the same URI
    and is followed by a sleep of exactly 5 seconds or by none; a refused
    or broken connection is always followed by the sleep. *)
Theorem reconnect_policy
    (sink_raises : list event -> sink_call -> bool)
    (uri : string) (script : list connection) (st : engine) :
  (reconnect_loop sink_raises uri script st).1 = Ret tt /\
  exists failed : list bool,
    List.length failed = List.length script /\
    schedule (trace (reconnect_loop sink_raises uri script st).2) =
      (schedule (trace st) ++ flat_map (pass uri) failed)%list /\
    (forall i c, script !! i = Some c -> connection_fails c = true ->
                 failed !! i = Some true).
Proof. split; [apply reconnect_loop_returns|apply reconnect_loop_passes]. Qed.

(** X11.  With [server_url], [device_secret] or [node_name] missing from
    the configuration, [run_dmx_client] ends in an exception before it
    opens any connection, after the ArtNet node has been created. *)
Theorem incomplete_config_stops_before_connecting
    (sink_raises : list event -> sink_call -> bool)
    (config : gmap string pyval) (my_ip : string) (script : list connection) :
  config !! "server_url" = None \/ config !! "device_secret" = None \/
  config !! "node_name" = None ->
  let run := run_dmx_client sink_raises config my_ip script initial_engine in
  raised run.1 = true /\
  schedule (trace run.2) = [] /\
  exists t, target_ip config my_ip = Ret t /\
            node_creations (trace run.2) = [EvSink (CreateNode t 6454 30 1)].
Proof.
  intros Hmiss run. subst run.
  destruct (target_ip_returns config my_ip) as [t Ht].
  rewrite (run_dmx_client_unfold sink_raises config my_ip script t Ht).
  destruct (created_engine_facts config my_ip t) as (_ & _ & Hsch & Hn).
  assert (Hbad : (exists e, uri config = Raise e) \/
                 (exists e, getitem config "node_name" = Raise e)).
  { destruct Hmiss as [H|[H|H]].
    - left. unfold uri, ws_base, getitem. rewrite H. eauto.
    - left. unfold uri, ws_base, getitem. rewrite H.
      destruct (config !! "server_url") as [[| | |s]|]; cbn [bind]; eauto.
    - right. unfold getitem. rewrite H. eauto. }
  destruct (sink_raises _ _); [simpl; eauto|].
  destruct Hbad as [[e He]|[e He]].
  - rewrite He. simpl. eauto.
  - rewrite He. destruct (uri config); simpl; eauto.
Qed.

Lemma incomplete_config_stops_before_connecting_witness :
  raised (run_dmx_client reliable_sink (delete "node_name" https_config) "192.168.1.20"
            demo_script initial_engine).1 = true.
Proof.
  apply (incomplete_config_stops_before_connecting reliable_sink
           (delete "node_name" https_config) "192.168.1.20" demo_script).
  right. right. reflexivity.
Defined.

(** X12.  With the three keys present, [server_url] a string and the node
    created, [run_dmx_client] does not end in an exception: it attempts
    every connection offered, each at the one URI computed at start-up. *)
Theorem complete_config_keeps_connecting
    (sink_raises : list event -> sink_call -> bool)
    (config : gmap string pyval) (my_ip : string) (script : list connection)
    (server_url : string) (secret name : pyval) :
  config !! "server_url" = Some (PyStr server_url) ->
  config !! "device_secret" = Some secret ->
  config !! "node_name" = Some name ->
  (forall tr t, sink_raises tr (CreateNode t 6454 30 1) = false) ->
  let run := run_dmx_client sink_raises config my_ip script initial_engine in
  let u := PyStr.replace "http://" "ws://" server_url
             +:+ "/dmx?token=" +:+ py_format secret in
  run.1 = Ret tt /\
  exists failed : list bool,
    List.length failed = List.length script /\
    schedule (trace run.2) = flat_map (pass u) failed.
Proof.
  intros Hurl Hsec Hname Hsink run u. subst run.
  destruct (target_ip_returns config my_ip) as [t Ht].
  rewrite (run_dmx_client_unfold sink_raises config my_ip script t Ht), Hsink.
  assert (Huri : uri config = Ret u).
  { unfold uri, ws_base, getitem. rewrite Hurl, Hsec. reflexivity. }
  rewrite Huri. unfold getitem. rewrite Hname.
  split; [apply reconnect_loop_returns|].
  destruct (reconnect_loop_passes sink_raises u script
              (emit (EvLog (LogConnecting name)) (created_engine config my_ip t)).2)
    as (failed & Hlen & Hs & _).
  exists failed. split; [exact Hlen|]. rewrite Hs.
  destruct (connecting_engine_facts config my_ip t name) as (_ & _ & Hsch & _).
  now rewrite Hsch.
Qed.

Lemma complete_config_keeps_connecting_witness :
  (run_dmx_client reliable_sink https_config "192.168.1.20" demo_script
     initial_engine).1 = Ret tt.
Proof.
  apply (complete_config_keeps_connecting reliable_sink https_config "192.168.1.20"
           demo_script "https://example.com" (PyStr "s3cr3t") (PyStr "stage-left"));
    reflexivity.
Defined.

(** X13.  [ArtNetNode.create] is called at most once in a run of
    [run_dmx_client]: not at all when [get_local_ip] raises, in which case
    the run ends with that exception before anything else happens;
    otherwise exactly once, with the target after the fix-up, port 6454, at
    most 30 frames per second and a refresh every second.  When that call
    raises, the run ends with its exception: no node exists, no connection
    is opened and nothing is registered or pushed.  Reconnecting and
    handling messages never call it again. *)
Theorem node_create_is_called_at_most_once
    (sink_raises : list event -> sink_call -> bool)
    (config : gmap string pyval) (net : network) (script : list connection) :
  let run := run_dmx_client_net sink_raises config net script initial_engine in
  match (get_local_ip net).1 with
  | Raise e => run = (Raise e, initial_engine)
  | Ret my_ip =>
      exists t,
        target_ip config my_ip = Ret t /\
        node_creations (trace run.2) = [EvSink (CreateNode t 6454 30 1)] /\
        (sink_raises (startup_log config my_ip t) (CreateNode t 6454 30 1) = true ->
         run.1 = Raise LibraryError /\
         schedule (trace run.2) = [] /\
         pushes (trace run.2) = [] /\
         universe_channels run.2 = ∅ /\ node_channels run.2 = [])
  end.
Proof.
  intros run. subst run. unfold run_dmx_client_net.
  destruct (get_local_ip net).1 as [my_ip|e]; [|reflexivity].
  destruct (run_dmx_client_final sink_raises config my_ip script)
    as (t & st0 & Ht & Hst0 & Hfin).
  exists t. split; [exact Ht|]. split.
  - assert (H0 : node_creations (trace st0) = [EvSink (CreateNode t 6454 30 1)]).
    { destruct Hst0 as [->|[name ->]].
      - apply created_engine_facts.
      - apply (connecting_engine_facts config my_ip t name). }
    destruct Hfin as [->|[u ->]]; [exact H0|].
    now rewrite reconnect_loop_node_creations.
  - intros Hraise.
    rewrite (run_dmx_client_unfold sink_raises config my_ip script t Ht), Hraise.
    destruct (created_engine_facts config my_ip t) as (_ & Hs & Hsch & _).
    cbn [fst snd]. split; [reflexivity|]. split; [exact Hsch|].
    split; [|split; reflexivity].
    destruct (pushes (trace (created_engine config my_ip t)))
      as [|[ch values] l] eqn:Hp; [reflexivity|].
    destruct (Hs []) as [Hfrom _].
    destruct (Hfrom ch values) as (msg & Hin & _); [rewrite Hp; left|].
    inversion Hin.
Qed.

Lemma node_create_is_called_at_most_once_witness :
  run_dmx_client_net reliable_sink https_config no_network demo_script initial_engine =
    (Raise LibraryError, initial_engine) /\
  (run_dmx_client_net refusing_node_sink https_config offline_network demo_script
     initial_engine).1 = Raise LibraryError /\
  schedule (trace (run_dmx_client_net refusing_node_sink https_config offline_network
                     demo_script initial_engine).2) = [].
Proof.
  split.
  - exact (node_create_is_called_at_most_once reliable_sink https_config no_network
             demo_script).
  - pose proof (node_create_is_called_at_most_once refusing_node_sink https_config
                  offline_network demo_script) as H.
    cbn [get_local_ip offline_network socket_create socket_connect fst] in H.
    destruct H as (t & _ & _ & Hraise).
    destruct (Hraise eq_refl) as (Hr & Hsch & _). auto.
Defined.

Lemma decoded_frame_shape msg u frame :
  decode msg = Some (u, frame) ->
  (512 <= List.length frame)%nat /\ Forall (fun v => (v < 256)%N) frame /\ (u < 65536)%N.
Proof.
  destruct msg as [data|text]; [|discriminate]. unfold decode.
  destruct (2 <? List.length data)%nat; [|discriminate].
  intros [= <- <-]. split; [|split].
  - rewrite DecodeFacts.pad_values_length. lia.
  - unfold pad_values.
    assert (Hb : Forall (fun v => (v < 256)%N) (N_of_bytes (skipn 2 data))).
    { apply Forall_map, Forall_forall. intros b _. simpl.
      pose proof (Byte.to_N_bounded b). lia. }
    destruct (_ <? _)%nat; [|exact Hb].
    apply Forall_app. split; [exact Hb|].
    apply Forall_replicate. reflexivity.
  - apply DecodeFacts.u_id_16_bit.
Qed.

(** X14.  Every list of values pushed to a channel in a run is the frame of
    a message that one of the connections delivered, pushed to a channel of
    that frame's universe; it has at least 512 entries, all below 256, and
    the universe is below 65536. *)
Theorem pushes_come_from_received_frames
    (sink_raises : list event -> sink_call -> bool)
    (config : gmap string pyval) (my_ip : string) (script : list connection)
    (ch : channel) (values : list N) :
  (ch, values) ∈ pushes (trace (run_dmx_client sink_raises config my_ip script
                                  initial_engine).2) ->
  (exists msg, msg ∈ script_messages script /\
               decode msg = Some (ch_universe ch, values)) /\
  (512 <= List.length values)%nat /\
  Forall (fun v => (v < 256)%N) values /\
  (ch_universe ch < 65536)%N.
Proof.
  intros Hin.
  destruct (run_dmx_client_sourced sink_raises config my_ip script) as [P _].
  destruct (P ch values Hin) as (msg & Hmsg & Hdec).
  split; [eauto|]. exact (decoded_frame_shape _ _ _ Hdec).
Qed.

Lemma pushes_come_from_received_frames_witness :
  exists msg, msg ∈ script_messages demo_script /\
              decode msg = Some (1%N, 255%N :: replicate 511 0%N).
Proof.
  apply (pushes_come_from_received_frames reliable_sink https_config "192.168.1.20"
           demo_script (new_channel 1 initial_engine) (255%N :: replicate 511 0%N)).
  vm_compute. left.
Defined.

(** X15.  The registry holds an entry only for a universe for which a
    frame was received. *)
Theorem registry_only_holds_received_universes
    (sink_raises : list event -> sink_call -> bool)
    (config : gmap string pyval) (my_ip : string) (script : list connection)
    (u : N) (ch : channel) :
  universe_channels (run_dmx_client sink_raises config my_ip script
                       initial_engine).2 !! u = Some ch ->
  exists msg frame, msg ∈ script_messages script /\ decode msg = Some (u, frame).
Proof.
  intros Hreg.
  destruct (run_dmx_client_sourced sink_raises config my_ip script) as [_ R].
  exact (R u ch Hreg).
Qed.

Lemma registry_only_holds_received_universes_witness :
  exists msg frame, msg ∈ script_messages demo_script /\ decode msg = Some (1%N, frame).
Proof.
  apply (registry_only_holds_received_universes reliable_sink https_config
           "192.168.1.20" demo_script 1%N (new_channel 1 initial_engine)).
  vm_compute. reflexivity.
Defined.

(** X16.  Whatever its input, [get_subnet_broadcast] returns a well-formed
    dotted quad whose last octet is 255, and applying it to its own result
    gives that result again. *)
Theorem subnet_broadcast_is_valid_and_idempotent (ip : string) :
  exists a b c : N,
    (a < 256)%N /\ (b < 256)%N /\ (c < 256)%N /\
    get_subnet_broadcast ip = Ret (dotted_quad a b c 255) /\
    get_subnet_broadcast (dotted_quad a b c 255) = Ret (dotted_quad a b c 255).
Proof.
  destruct (BroadcastFacts.broadcast_never_raises ip) as [s Hs].
  destruct (BroadcastFacts.broadcast_inv ip s Hs)
    as [->|(a & b & c & d & Ha & Hb & Hc & Hd & ->)].
  - exists 255%N, 255%N, 255%N.
    split; [reflexivity|]. split; [reflexivity|]. split; [reflexivity|].
    split; [exact Hs|].
    apply (BroadcastFacts.broadcast_dotted_quad 255 255 255 255); reflexivity.
  - exists a, b, c.
    split; [exact Ha|]. split; [exact Hb|]. split; [exact Hc|].
    split; [now apply BroadcastFacts.broadcast_dotted_quad|].
    apply BroadcastFacts.broadcast_dotted_quad; auto. reflexivity.
Qed.

(** X17.  A binary message with one to 512 data bytes after its header
    decodes to a frame of exactly 512 values: the data bytes in order,
    followed by zeros. *)
Theorem short_frame_is_zero_padded (data : list byte) :
  (2 < List.length data <= 514)%nat ->
  exists frame,
    decode (Binary data) = Some (u_id_of data, frame) /\
    frame = (N_of_bytes (skipn 2 data) ++ replicate (514 - List.length data) 0%N)%list /\
    List.length frame = 512%nat.
Proof.
  intros [Hlo Hhi]. rewrite DecodeFacts.decode_binary by exact Hlo.
  eexists. split; [reflexivity|].
  assert (Hlen : List.length (N_of_bytes (skipn 2 data)) = (List.length data - 2)%nat)
    by (now rewrite DecodeFacts.N_of_bytes_length, length_skipn).
  split.
  - unfold pad_values. rewrite Hlen.
    destruct (Nat.ltb_spec (List.length data - 2) 512).
    + f_equal. f_equal. lia.
    + replace (514 - List.length data)%nat with 0%nat by lia.
      now rewrite app_nil_r.
  - rewrite DecodeFacts.pad_values_length, Hlen. lia.
Qed.

Lemma short_frame_is_zero_padded_witness :
  decode (Binary [x00; x07; x0a; x14]%byte) =
    Some (7%N, 10%N :: 20%N :: replicate 510 0%N).
Proof.
  destruct (short_frame_is_zero_padded [x00; x07; x0a; x14]%byte
              ltac:(simpl; lia)) as (frame & Hdec & -> & _).
  exact Hdec.
Defined.

(** X18.  For a server URL that starts with [http://] and holds no further
    [http://], the streaming URI is [ws://] with the rest of the URL,
    followed by [/dmx?token=] and the device secret as an f-string renders
    it. *)
Theorem http_server_url_becomes_ws
    (config : gmap string pyval) (host : string) (secret : pyval) :
  occurs "http://" host = false ->
  config !! "server_url" = Some (PyStr ("http://" +:+ host)) ->
  config !! "device_secret" = Some secret ->
  uri config = Ret (("ws://" +:+ host) +:+ "/dmx?token=" +:+ py_format secret).
Proof.
  intros Hhost Hurl Hsecret. unfold uri, ws_base, getitem.
  rewrite Hurl, Hsecret. cbn [bind]. now rewrite UriFacts.replace_http.
Qed.

Lemma http_server_url_becomes_ws_witness :
  uri (<["server_url" := PyStr "http://192.168.178.50:8000"]> https_config) =
    Ret "ws://192.168.178.50:8000/dmx?token=s3cr3t".
Proof.
  apply (http_server_url_becomes_ws
           (<["server_url" := PyStr "http://192.168.178.50:8000"]> https_config)
           "192.168.178.50:8000" (PyStr "s3cr3t")); reflexivity.
Defined.
